(** * Soft Actor-Critic agent ([SAC/sac_agent.py]): model and properties

    The agent is a Python class whose methods mutate [self], draw random
    numbers from the process-wide generators of torch and numpy, and read and
    write parameter files.  The embedding makes all of that explicit:

    - tensors are lists of scalars; the scalar type and its arithmetic are the
      interface [Scalar], so the properties do not depend on how
      floating-point operations round; where a property needs a law of
      float arithmetic or of the comparison, the law is one that holds of
      floats with their infinities and NaN, and is named ([FiniteArith],
      [FloatOrder], [ClipExact]; [Ieee] is an instance with NaN);
    - the network classes, the optimiser and automatic differentiation are
      interfaces as well ([Nets], [Torch]);
    - a method takes the outside world [World] and the agent [SAC.Agent] and
      returns both, together with what the call returned or raised;
    - the module-level constants are the fields of [Hyper]; the methods take
      them as an argument and [module_constants] holds the module's values. *)

From stdpp Require Import base gmap strings list.
From Stdlib Require Import ZArith Lia Ascii.

(** ** Scalars and tensors *)

(** The float type of torch and numpy with the operations the agent uses. *)
Class Scalar (F : Type) := {
  of_Z : Z → F;                (* an integer literal or Python int used as a float *)
  lit : Z → Z → F;             (* the decimal literal  m e  for  m * 10^e *)
  fadd : F → F → F;
  fsub : F → F → F;
  fmul : F → F → F;
  fneg : F → F;
  fexp : F → F;
  fminimum : F → F → F;
  fmaximum : F → F → F;
  fleb : F → F → bool;         (* the comparison  x <= y *)
  fmean : list F → F           (* Tensor.mean(): the reduction over all elements *)
}.

Section FloatPredicates.
Context {F : Type} `{Scalar F}.

(** [x] is a number, not a NaN: a NaN compares false with everything, itself
    included. *)
Definition is_num (x : F) : bool := fleb x x.

(** Float equality [x == y]; the two zeros are equal, a NaN equals nothing. *)
Definition feqb (x y : F) : bool := fleb x y && fleb y x.

(** [x] is finite: [x - x] is zero (it is NaN for an infinity or a NaN). *)
Definition is_finite (x : F) : bool := feqb (fsub x x) (of_Z 0).

End FloatPredicates.


(** Minimum, maximum and the comparison as numpy has them: on numbers they
    are the order's, and a NaN operand gives NaN ([np.minimum] and
    [np.maximum] propagate NaN). *)
Class FloatOrder (F : Type) `{Scalar F} : Prop := {
  fle_num_l : ∀ x y, fleb x y = true → is_num x = true;
  fle_num_r : ∀ x y, fleb x y = true → is_num y = true;
  fmaximum_ge_r : ∀ x y,
    is_num x = true → is_num y = true → fleb y (fmaximum x y) = true;
  fminimum_le_l : ∀ x y,
    is_num x = true → is_num y = true → fleb (fminimum x y) x = true;
  fminimum_glb : ∀ x y z,
    fleb z x = true → fleb z y = true → fleb z (fminimum x y) = true;
  fmaximum_nan_l : ∀ x y, is_num x = false → is_num (fmaximum x y) = false;
  fminimum_nan_r : ∀ x y, is_num y = false → is_num (fminimum x y) = false;
  fle_m1_1 : fleb (of_Z (-1)) (of_Z 1) = true
}.

(** A tensor is the list of its elements (a column of shape [N,1] is the list
    of its N entries, a matrix of shape [N,k] the list of its N rows); a
    module's [parameters()] is the list of its parameter tensors. *)
Abbreviation Params F := (list (list F)) (only parsing).

(** The shape of a parameter list, as far as [load_state_dict] compares it. *)
Definition shape {A : Type} (p : list (list A)) : list nat := length <$> p.

(** What a call produces: a value, or a raised exception. *)
Inductive Exn :=
  | InsufficientDataError   (* the replay buffer holds too few transitions *)
  | ZeroDivisionError
  | ValueError              (* numpy: reshape to an impossible shape *)
  | FileNotFoundError       (* torch.load on a missing path *)
  | RuntimeError.           (* torch.save without the parent directory;
                               load_state_dict on a size mismatch *)

Inductive outcome (A : Type) :=
  | Returned (a : A)
  | Raised (e : Exn).
Arguments Returned {A} a.
Arguments Raised {A} e.

Section TensorOps.
Context {F : Type} `{Scalar F}.

Definition of_bool (b : bool) : F := of_Z (if b then 1%Z else 0%Z).

(** Broadcasting of a binary operation when one operand has a single element
    (shape [1] against shape [N,1]); same-shape operands go elementwise. *)
Definition bcast (f : F → F → F) (a b : list F) : list F :=
  match a, b with
  | [x], _ => f x <$> b
  | _, [y] => (λ x, f x y) <$> a
  | _, _ => zip_with f a b
  end.

(** [F.mse_loss(input, target)]: the mean of the squared differences. *)
Definition mse_loss (input target : list F) : F :=
  fmean (zip_with (λ x y, fmul (fsub x y) (fsub x y)) input target).

(** [np.clip(a, a_min, a_max)] is [np.minimum(a_max, np.maximum(a, a_min))]. *)
Definition np_clip (a a_min a_max : F) : F := fminimum a_max (fmaximum a a_min).

End TensorOps.

(** [np.prod] of a tuple of integers. *)
Definition np_prod (l : list Z) : Z := foldr Z.mul 1%Z l.

(** [a.reshape(-1, k)]: the elements of [a] in row-major order, regrouped in
    rows of [k]; numpy raises ValueError when that is impossible. *)
Fixpoint chunks {A : Type} (fuel k : nat) (l : list A) : list (list A) :=
  match fuel with
  | O => []
  | S n => match l with
           | [] => []
           | _ => take k l :: chunks n k (drop k l)
           end
  end.

Definition reshape_rows {A : Type} (k : nat) (a : list (list A)) : outcome (list (list A)) :=
  let flat := concat a in
  if decide (k = 0) then Raised ValueError
  else if decide (length flat `mod` k = 0)
       then Returned (chunks (length flat) k flat)
       else Raised ValueError.

(** ** The replay buffer ([SAC/buffer.py]) *)

(** Modelled from the spec: the buffer draws its indices from numpy's
    generator; [choice rng n k] stands for [k] of them below [n], with the
    generator's next state. *)
Class Sampler (Rng : Type) := {
  choice : Rng → nat → nat → list nat * Rng
}.

Module ReplayBuffer.
Section Buffer.
Context {F : Type} `{Scalar F} {Rng : Type} `{Sampler Rng}.

(** Modelled from the spec: the class ReplayBuffer of SAC/buffer.py is not
    among the sources.  Pre-allocated arrays for each field, a capacity, a
    write cursor and a size counter; the batch size is fixed at construction,
    since the agent calls [sample_batch()] without an argument. *)
Record t := mk {
  obs_buf : list (list F);
  next_obs_buf : list (list F);
  acts_buf : list (list F);
  rews_buf : list F;
  done_buf : list bool;
  max_size : nat;
  batch_size : nat;
  ptr : nat;
  cur_size : nat
}.

(** Modelled from the spec: ReplayBuffer(obs_dim, act_dim, size, batch_size),
    every array allocated at full capacity and zero-filled. *)
Definition new (obs_dim act_dim size batch : nat) : t :=
  {| obs_buf := replicate size (replicate obs_dim (of_Z 0%Z));
     next_obs_buf := replicate size (replicate obs_dim (of_Z 0%Z));
     acts_buf := replicate size (replicate act_dim (of_Z 0%Z));
     rews_buf := replicate size (of_Z 0%Z);
     done_buf := replicate size false;
     max_size := size;
     batch_size := batch;
     ptr := 0;
     cur_size := 0 |}.

(** Modelled from the spec: store(s, a, r, s', done) writes at the cursor,
    advances the cursor circularly and increments the size up to capacity. *)
Definition store (rb : t) (s a : list F) (r : F) (s' : list F) (d : bool) : t :=
  {| obs_buf := <[ptr rb := s]> (obs_buf rb);
     next_obs_buf := <[ptr rb := s']> (next_obs_buf rb);
     acts_buf := <[ptr rb := a]> (acts_buf rb);
     rews_buf := <[ptr rb := r]> (rews_buf rb);
     done_buf := <[ptr rb := d]> (done_buf rb);
     max_size := max_size rb;
     batch_size := batch_size rb;
     ptr := (ptr rb + 1) `mod` max_size rb;
     cur_size := (cur_size rb + 1) `min` max_size rb |}.

(** Modelled from the spec: len() is the current size. *)
Definition len (rb : t) : nat := cur_size rb.

(** The dictionary [sample_batch] returns, one array per key; the keys are
    those [update_model] reads. *)
Record Batch := mkBatch {
  obs : list (list F);
  next_obs : list (list F);
  acts : list (list F);
  rews : list F;
  done : list bool
}.

(** Modelled from the spec: the entries of an array at the drawn indices. *)
Definition gather {A : Type} (buf : list A) (idxs : list nat) : list A :=
  omap (λ i, buf !! i) idxs.

(** Modelled from the spec: sample_batch fails with InsufficientDataError when
    the size is below the batch size; otherwise it draws indices into the
    valid region and returns the gathered fields. *)
Definition sample_batch (rb : t) (rng : Rng) : outcome (Batch * Rng) :=
  if decide (cur_size rb < batch_size rb) then Raised InsufficientDataError
  else
    let '(idxs, rng') := choice rng (cur_size rb) (batch_size rb) in
    Returned ({| obs := gather (obs_buf rb) idxs;
                 next_obs := gather (next_obs_buf rb) idxs;
                 acts := gather (acts_buf rb) idxs;
                 rews := gather (rews_buf rb) idxs;
                 done := gather (done_buf rb) idxs |}, rng').

(** The transition held at index [i], read across the five arrays. *)
Definition slot (rb : t) (i : nat) : option (list F * list F * F * list F * bool) :=
  s ← obs_buf rb !! i; a ← acts_buf rb !! i; r ← rews_buf rb !! i;
  s' ← next_obs_buf rb !! i; d ← done_buf rb !! i;
  Some (s, a, r, s', d).

(** Modelled from the spec: the invariant of the buffer.  Every array has the
    capacity as its length, the cursor is inside, the size is at most the
    capacity. *)
Definition wf (rb : t) : Prop :=
  length (obs_buf rb) = max_size rb
  ∧ length (next_obs_buf rb) = max_size rb
  ∧ length (acts_buf rb) = max_size rb
  ∧ length (rews_buf rb) = max_size rb
  ∧ length (done_buf rb) = max_size rb
  ∧ ptr rb < max_size rb
  ∧ cur_size rb ≤ max_size rb.

End Buffer.
Arguments t F : clear implicits.
Arguments Batch F : clear implicits.
End ReplayBuffer.

(** ** torch: optimisers and automatic differentiation *)

(** An optimiser owns the parameters it was built on.  The source always runs
    [opt.zero_grad(); loss.backward(); opt.step()] in a row, so a step sees
    exactly the gradient of that one loss with respect to the optimiser's own
    parameters, taken at their current values.  [backward loss p] is that
    gradient for the loss written as a function of the parameters; a
    sub-expression under [.detach()], or one that does not involve these
    parameters, is a constant of that function. *)
Class Torch (F : Type) := {
  OptState : Type → Type;
  Adam : ∀ P : Type, P → F → OptState P;
  backward : ∀ P : Type, (P → F) → P → P;
  opt_step : ∀ P : Type, OptState P → P → P → OptState P * P
}.
Arguments Adam {F _ P} params lr.
Arguments backward {F _ P} loss params.
Arguments opt_step {F _ P} opt params grads.

(** What [load_state_dict] has copied when it is through: every tensor of
    [sd] whose size fits its place in the module has replaced the module's
    own; a tensor that does not fit, or has no partner, is left. *)
Fixpoint copy_fitting {F : Type} (own sd : Params F) : Params F :=
  match own, sd with
  | o :: own', t :: sd' =>
      (if decide (length o = length t) then t else o) :: copy_fitting own' sd'
  | _, _ => own
  end.

(** [module.load_state_dict(sd)] (strict): the fitting tensors are copied
    first, and only then RuntimeError is raised if anything did not match, so
    a failed load leaves the module partly overwritten.  The result is the
    module's parameters afterwards and what the call returned or raised. *)
Definition load_state_dict {F : Type} (own sd : Params F) : Params F * outcome unit :=
  (copy_fitting own sd,
   if decide (shape own = shape sd) then Returned tt else Raised RuntimeError).
Arguments load_state_dict : simpl never.

(** ** The networks ([SAC/actor_critic.py]) *)

(** The classes Actor, CriticQ and CriticV are not among the sources; the
    agent only constructs and calls them, so they are taken as given:
    constructors return freshly initialised parameters, [Actor_forward] returns
    (action, log_prob) for a batch of states and consumes sampling noise,
    [Actor_forward1] is the same call on a single state vector. *)
Class Nets (F Rng : Type) := {
  Actor : nat → nat → Rng → Params F * Rng;
  Actor_forward : Params F → Rng → list (list F) → (list (list F) * list F) * Rng;
  Actor_forward1 : Params F → Rng → list F → (list F * list F) * Rng;
  CriticV : nat → Rng → Params F * Rng;
  CriticV_forward : Params F → list (list F) → list F;
  CriticQ : nat → Rng → Params F * Rng;
  CriticQ_forward : Params F → list (list F) → list (list F) → list F
}.

(** ** Module-level constants *)

Record Hyper (F : Type) := mkHyper {
  GAMMMA : F;
  TAU : F;
  INITIAL_RANDOM_STEPS : Z;
  POLICY_UPDATE_FREQUENCE : Z;
  BUFFER_SIZE : nat;
  BATCH_SIZE : nat;
  LR_A : F;
  LR_Q : F
}.
Arguments mkHyper {F}.
Arguments GAMMMA {F}.
Arguments TAU {F}.
Arguments INITIAL_RANDOM_STEPS {F}.
Arguments POLICY_UPDATE_FREQUENCE {F}.
Arguments BUFFER_SIZE {F}.
Arguments BATCH_SIZE {F}.
Arguments LR_A {F}.
Arguments LR_Q {F}.

(** The values the module defines. *)
Definition module_constants {F : Type} `{Scalar F} : Hyper F :=
  {| GAMMMA := lit 995 (-3);
     TAU := lit 5 (-3);
     INITIAL_RANDOM_STEPS := 100;
     POLICY_UPDATE_FREQUENCE := 1;
     BUFFER_SIZE := Z.to_nat 1000000;
     BATCH_SIZE := 256;
     LR_A := lit 3 (-3);
     LR_Q := lit 3 (-3) |}.

(** ** The outside world *)

Inductive OptName := OptAlpha | OptActor | OptQf1 | OptQf2 | OptVf.

(** The calls a method makes that the properties below speak about, recorded
    in program order. *)
Inductive Call :=
  | SampleBatch
  | OptimizerStep (o : OptName)
  | TargetSoftUpdate.

(** The parent directory of a path: the text before its last slash. *)
Fixpoint dirname (path : string) : option string :=
  match path with
  | EmptyString => None
  | String c rest =>
      match dirname rest with
      | Some d => Some (String c d)
      | None => if decide (c = "/"%char) then Some EmptyString else None
      end
  end.

Record World (F Rng : Type) := mkWorld {
  torch_rng : Rng;                 (* torch's global generator *)
  np_rng : Rng;                    (* numpy's global generator *)
  dirs : gset string;              (* the directories that exist *)
  files : gmap string (Params F);  (* the state dicts saved so far, by path *)
  calls : list Call
}.
Arguments mkWorld {F Rng}.
Arguments torch_rng {F Rng}.
Arguments np_rng {F Rng}.
Arguments dirs {F Rng}.
Arguments files {F Rng}.
Arguments calls {F Rng}.

Section WorldOps.
Context {F Rng : Type}.

Definition set_torch_rng (r : Rng) (w : World F Rng) : World F Rng :=
  mkWorld r (np_rng w) (dirs w) (files w) (calls w).
Definition set_np_rng (r : Rng) (w : World F Rng) : World F Rng :=
  mkWorld (torch_rng w) r (dirs w) (files w) (calls w).
Definition set_files (fs : gmap string (Params F)) (w : World F Rng) : World F Rng :=
  mkWorld (torch_rng w) (np_rng w) (dirs w) fs (calls w).
Definition log (c : Call) (w : World F Rng) : World F Rng :=
  mkWorld (torch_rng w) (np_rng w) (dirs w) (files w) (calls w ++ [c]).

(** [torch.save(sd, path)]: raises RuntimeError (parent directory does not
    exist) when the parent directory is missing. *)
Definition torch_save (sd : Params F) (path : string) (w : World F Rng)
  : World F Rng * outcome unit :=
  match dirname path with
  | Some d =>
      if decide (d ∈ dirs w) then (set_files (<[path := sd]> (files w)) w, Returned tt)
      else (w, Raised RuntimeError)
  | None => (set_files (<[path := sd]> (files w)) w, Returned tt)
  end.

(** [torch.load(path, map_location=cpu)]: the values do not depend on the
    device they are mapped to. *)
Definition torch_load (path : string) (w : World F Rng) : outcome (Params F) :=
  match files w !! path with
  | Some sd => Returned sd
  | None => Raised FileNotFoundError
  end.

End WorldOps.

(** ** The agent: class SAC *)

Module SAC.
Section Agent.
Context {F : Type} `{Scalar F} `{Torch F} {Rng : Type} `{Sampler Rng} `{Nets F Rng}.

(** The attribute [self.transition]: [[[]]] after construction, then the
    five-element list of the last stored transition. *)
Inductive TransitionAttr :=
  | NoTransition
  | Transition (state action : list F) (reward : F) (new_state : list F) (done : bool).

(** The attributes of [self].  [self.device] is left out: where a tensor is
    placed does not change its values. *)
Record Agent := mkAgent {
  statedim : nat;
  actiondim : nat;
  memory : ReplayBuffer.t F;
  target_alpha : Z;
  log_alpha : list F;
  alpha_optimizer : OptState (list F);
  actor : Params F;
  vf : Params F;
  vf_target : Params F;
  qf1 : Params F;
  qf2 : Params F;
  actor_optimizer : OptState (Params F);
  vf_optimizer : OptState (Params F);
  qf1_optimizer : OptState (Params F);
  qf2_optimizer : OptState (Params F);
  transition : TransitionAttr;
  total_step : Z;
  is_test : bool
}.

Definition set_memory (m : ReplayBuffer.t F) (a : Agent) : Agent :=
  mkAgent (statedim a) (actiondim a) m (target_alpha a) (log_alpha a) (alpha_optimizer a)
    (actor a) (vf a) (vf_target a) (qf1 a) (qf2 a) (actor_optimizer a) (vf_optimizer a)
    (qf1_optimizer a) (qf2_optimizer a) (transition a) (total_step a) (is_test a).
Definition set_alpha (o : OptState (list F)) (la : list F) (a : Agent) : Agent :=
  mkAgent (statedim a) (actiondim a) (memory a) (target_alpha a) la o
    (actor a) (vf a) (vf_target a) (qf1 a) (qf2 a) (actor_optimizer a) (vf_optimizer a)
    (qf1_optimizer a) (qf2_optimizer a) (transition a) (total_step a) (is_test a).
Definition set_actor (o : OptState (Params F)) (p : Params F) (a : Agent) : Agent :=
  mkAgent (statedim a) (actiondim a) (memory a) (target_alpha a) (log_alpha a) (alpha_optimizer a)
    p (vf a) (vf_target a) (qf1 a) (qf2 a) o (vf_optimizer a)
    (qf1_optimizer a) (qf2_optimizer a) (transition a) (total_step a) (is_test a).
Definition set_vf (o : OptState (Params F)) (p : Params F) (a : Agent) : Agent :=
  mkAgent (statedim a) (actiondim a) (memory a) (target_alpha a) (log_alpha a) (alpha_optimizer a)
    (actor a) p (vf_target a) (qf1 a) (qf2 a) (actor_optimizer a) o
    (qf1_optimizer a) (qf2_optimizer a) (transition a) (total_step a) (is_test a).
Definition set_vf_target (p : Params F) (a : Agent) : Agent :=
  mkAgent (statedim a) (actiondim a) (memory a) (target_alpha a) (log_alpha a) (alpha_optimizer a)
    (actor a) (vf a) p (qf1 a) (qf2 a) (actor_optimizer a) (vf_optimizer a)
    (qf1_optimizer a) (qf2_optimizer a) (transition a) (total_step a) (is_test a).
Definition set_qf1 (o : OptState (Params F)) (p : Params F) (a : Agent) : Agent :=
  mkAgent (statedim a) (actiondim a) (memory a) (target_alpha a) (log_alpha a) (alpha_optimizer a)
    (actor a) (vf a) (vf_target a) p (qf2 a) (actor_optimizer a) (vf_optimizer a)
    o (qf2_optimizer a) (transition a) (total_step a) (is_test a).
Definition set_qf2 (o : OptState (Params F)) (p : Params F) (a : Agent) : Agent :=
  mkAgent (statedim a) (actiondim a) (memory a) (target_alpha a) (log_alpha a) (alpha_optimizer a)
    (actor a) (vf a) (vf_target a) (qf1 a) p (actor_optimizer a) (vf_optimizer a)
    (qf1_optimizer a) o (transition a) (total_step a) (is_test a).
Definition set_transition (t : TransitionAttr) (a : Agent) : Agent :=
  mkAgent (statedim a) (actiondim a) (memory a) (target_alpha a) (log_alpha a) (alpha_optimizer a)
    (actor a) (vf a) (vf_target a) (qf1 a) (qf2 a) (actor_optimizer a) (vf_optimizer a)
    (qf1_optimizer a) (qf2_optimizer a) t (total_step a) (is_test a).
Definition set_total_step (n : Z) (a : Agent) : Agent :=
  mkAgent (statedim a) (actiondim a) (memory a) (target_alpha a) (log_alpha a) (alpha_optimizer a)
    (actor a) (vf a) (vf_target a) (qf1 a) (qf2 a) (actor_optimizer a) (vf_optimizer a)
    (qf1_optimizer a) (qf2_optimizer a) (transition a) n (is_test a).

(** *** __init__ (lines 27-57) *)

(** [vf_target.load_state_dict(vf.state_dict())] is the only step that can
    raise; a constructor that raises leaves no agent behind. *)
Definition __init__ (hp : Hyper F) (action_dim state_dim : nat) (w : World F Rng)
  : World F Rng * outcome Agent :=
  let memory := ReplayBuffer.new state_dim action_dim (BUFFER_SIZE hp) (BATCH_SIZE hp) in
  let target_alpha := (- np_prod [Z.of_nat action_dim])%Z in
  let log_alpha := [of_Z 0%Z] in
  let alpha_optimizer := Adam log_alpha (lit 3 (-4)) in
  let a := Actor state_dim action_dim (torch_rng w) in
  let v := CriticV state_dim a.2 in
  let vt := CriticV state_dim v.2 in
  let loaded := load_state_dict vt.1 v.1 in
  let vf_target := loaded.1 in
  match loaded.2 with
  | Raised e => (set_torch_rng vt.2 w, Raised e)
  | Returned _ =>
      let q1 := CriticQ (state_dim + action_dim) vt.2 in
      let q2 := CriticQ (state_dim + action_dim) q1.2 in
      (set_torch_rng q2.2 w,
       Returned {| statedim := state_dim;
                   actiondim := action_dim;
                   memory := memory;
                   target_alpha := target_alpha;
                   log_alpha := log_alpha;
                   alpha_optimizer := alpha_optimizer;
                   actor := a.1;
                   vf := v.1;
                   vf_target := vf_target;
                   qf1 := q1.1;
                   qf2 := q2.1;
                   actor_optimizer := Adam a.1 (LR_A hp);
                   vf_optimizer := Adam v.1 (LR_Q hp);
                   qf1_optimizer := Adam q1.1 (LR_Q hp);
                   qf2_optimizer := Adam q2.1 (LR_Q hp);
                   transition := NoTransition;
                   total_step := 0;
                   is_test := false |})
  end.

(** *** step (lines 64-72) *)

(** The action is appended to an empty list, the list is turned into an array
    (one row), clipped, and returned as nested lists. *)
Definition step (w : World F Rng) (self : Agent) (state : list F)
  : World F Rng * Agent * list (list F) :=
  let selected_action : list (list F) := [] in
  let out := Actor_forward1 (actor self) (torch_rng w) state in
  let action := out.1.1 in
  let selected_action := selected_action ++ [action] in
  let selected_action :=
    (λ row : list F, (λ x, np_clip x (of_Z (-1)) (of_Z 1)) <$> row) <$> selected_action in
  (set_torch_rng out.2 w, set_total_step (total_step self + 1) self, selected_action).

(** *** store_transition (lines 74-77) *)

Definition store_transition (w : World F Rng) (self : Agent)
    (state new_state : list F) (reward : F) (action : list F) (done : bool)
  : World F Rng * Agent * outcome unit :=
  if negb (is_test self) then
    let self := set_transition (Transition state action reward new_state done) self in
    let self :=
      set_memory (ReplayBuffer.store (memory self) state action reward new_state done) self in
    (w, self, Returned tt)
  else (w, self, Returned tt).

(** *** _target_soft_update (lines 158-162) *)

(** [TAU * l_param.data + (1.0 - TAU) * t_param.data] on two tensors of the
    same size, which is what a target and an online tensor are on every agent
    that [__init__] built ([well_shaped]); the properties of the update are
    stated for pairs of equal size, the only ones this definition speaks
    for. *)
Definition soft_update_tensor (hp : Hyper F) (t_param l_param : list F) : list F :=
  zip_with fadd (fmul (TAU hp) <$> l_param) (fmul (fsub (of_Z 1) (TAU hp)) <$> t_param).

(** The loop runs over [zip] of the two parameter lists and copies in place:
    target tensors beyond the shorter list stay as they are. *)
Definition _target_soft_update (hp : Hyper F) (self : Agent) : Agent :=
  set_vf_target
    (zip_with (soft_update_tensor hp) (vf_target self) (vf self)
       ++ drop (length (vf self)) (vf_target self))
    self.

(** *** update_model (lines 83-142) *)

(** The four values [update_model] returns. *)
Record Losses := mkLosses {
  actor_loss : F;
  qf_loss : F;
  v_loss : F;
  alpha_loss : F
}.

(** Line 94, as a function of [log_alpha]. *)
Definition alpha_loss_of (log_alpha log_prob : list F) (target_alpha : Z) : F :=
  fmean (bcast fmul (fneg <$> (fexp <$> log_alpha))
           ((λ x, fadd x (of_Z target_alpha)) <$> log_prob)).

(** Lines 102 and 106. *)
Definition q_target_of (hp : Hyper F) (reward vf_target done : list F) : list F :=
  let mask := (λ d, fsub (of_Z 1) d) <$> done in
  zip_with fadd reward (zip_with fmul (fmul (GAMMMA hp) <$> vf_target) mask).

(** Lines 111-113, as a function of the resampled action. *)
Definition q_pred_of (qf1 qf2 : Params F) (state new_action : list (list F)) : list F :=
  zip_with fminimum (CriticQ_forward qf1 state new_action)
                    (CriticQ_forward qf2 state new_action).

(** Lines 118-119, as a function of what the actor returned. *)
Definition actor_loss_of (alpha : list F) (qf1 qf2 : Params F) (v_pred : list F)
    (state : list (list F)) (out : list (list F) * list F) : F :=
  let advantage := zip_with fsub (q_pred_of qf1 qf2 state out.1) v_pred in
  fmean (zip_with fsub (bcast fmul alpha out.2) advantage).

(** An attribute read [self.x] is written on [self] as long as the method has
    not assigned [x]; [self1] is the agent once the temperature has been
    stepped, [self2] once the policy branch is through. *)
Definition update_model (hp : Hyper F) (w : World F Rng) (self : Agent)
  : World F Rng * Agent * outcome Losses :=
  let w := log SampleBatch w in
  match ReplayBuffer.sample_batch (memory self) (np_rng w) with
  | Raised e => (w, self, Raised e)
  | Returned (samples, nr) =>
  let w := set_np_rng nr w in
  let state := ReplayBuffer.obs samples in
  let next_state := ReplayBuffer.next_obs samples in
  match reshape_rows (actiondim self) (ReplayBuffer.acts samples) with
  | Raised e => (w, self, Raised e)
  | Returned action =>
  let reward := ReplayBuffer.rews samples in
  let done := of_bool <$> ReplayBuffer.done samples in
  let out := Actor_forward (actor self) (torch_rng w) state in
  let new_action := out.1.1 in
  let log_prob := out.1.2 in
  let w1 := set_torch_rng out.2 w in
  (* entropy temperature, lines 94-100 *)
  let alpha_loss := alpha_loss_of (log_alpha self) log_prob (target_alpha self) in
  let a_step :=
    opt_step (alpha_optimizer self) (log_alpha self)
      (backward (λ la, alpha_loss_of la log_prob (target_alpha self)) (log_alpha self)) in
  let w2 := log (OptimizerStep OptAlpha) w1 in
  let self1 := set_alpha a_step.1 a_step.2 self in
  let alpha := fexp <$> a_step.2 in
  (* Q losses, lines 102-108 *)
  let q1_pred := CriticQ_forward (qf1 self) state action in
  let q2_pred := CriticQ_forward (qf2 self) state action in
  let vf_target_next := CriticV_forward (vf_target self) next_state in
  let q_target := q_target_of hp reward vf_target_next done in
  let qf1_loss := mse_loss q_target q1_pred in
  let qf2_loss := mse_loss q_target q2_pred in
  (* V loss, lines 110-115 *)
  let v_pred := CriticV_forward (vf self) state in
  let q_pred := q_pred_of (qf1 self) (qf2 self) state new_action in
  let v_target := zip_with fsub q_pred (bcast fmul alpha log_prob) in
  let v_loss := mse_loss v_pred v_target in
  (* policy and target network, lines 117-127 *)
  if decide (POLICY_UPDATE_FREQUENCE hp = 0%Z) then (w2, self1, Raised ZeroDivisionError)
  else
  let policy :=
    if decide ((total_step self `mod` POLICY_UPDATE_FREQUENCE hp)%Z = 0%Z) then
      let loss θ :=
        actor_loss_of alpha (qf1 self) (qf2 self) v_pred state
          (Actor_forward θ (torch_rng w) state).1 in
      let p_step := opt_step (actor_optimizer self) (actor self) (backward loss (actor self)) in
      (log TargetSoftUpdate (log (OptimizerStep OptActor) w2),
       _target_soft_update hp (set_actor p_step.1 p_step.2 self1),
       actor_loss_of alpha (qf1 self) (qf2 self) v_pred state (new_action, log_prob))
    else (w2, self1, of_Z 0%Z) in
  let w3 := policy.1.1 in
  let self2 := policy.1.2 in
  (* critics, lines 129-140 *)
  let q1_step :=
    opt_step (qf1_optimizer self) (qf1 self)
      (backward (λ θ, mse_loss q_target (CriticQ_forward θ state action)) (qf1 self)) in
  let q2_step :=
    opt_step (qf2_optimizer self) (qf2 self)
      (backward (λ θ, mse_loss q_target (CriticQ_forward θ state action)) (qf2 self)) in
  let qf_loss := fadd qf1_loss qf2_loss in
  let v_step :=
    opt_step (vf_optimizer self) (vf self)
      (backward (λ θ, mse_loss (CriticV_forward θ state) v_target) (vf self)) in
  let self3 :=
    set_vf v_step.1 v_step.2 (set_qf2 q2_step.1 q2_step.2 (set_qf1 q1_step.1 q1_step.2 self2)) in
  let w4 := log (OptimizerStep OptVf) (log (OptimizerStep OptQf2) (log (OptimizerStep OptQf1) w3)) in
  (w4, self3, Returned (mkLosses policy.2 qf_loss v_loss alpha_loss))
  end
  end.

(** *** train (lines 79-81) *)

Definition train (hp : Hyper F) (w : World F Rng) (self : Agent)
  : World F Rng * Agent * outcome unit :=
  if decide (BATCH_SIZE hp < ReplayBuffer.len (memory self)
             ∧ (INITIAL_RANDOM_STEPS hp < total_step self)%Z)
  then
    match update_model hp w self with
    | (w', self', Returned _) => (w', self', Returned tt)
    | (w', self', Raised e) => (w', self', Raised e)
    end
  else (w, self, Returned tt).

(** *** save_models and load_models (lines 144-156) *)

Definition save_models (w : World F Rng) (self : Agent)
  : World F Rng * Agent * outcome unit :=
  match torch_save (actor self) "results/actor.pt" w with
  | (w, Raised e) => (w, self, Raised e)
  | (w, Returned _) =>
  match torch_save (qf1 self) "results/qf1.pt" w with
  | (w, Raised e) => (w, self, Raised e)
  | (w, Returned _) =>
  match torch_save (qf2 self) "results/qf2.pt" w with
  | (w, Raised e) => (w, self, Raised e)
  | (w, Returned _) =>
  match torch_save (vf self) "results/vf.pt" w with
  | (w, Raised e) => (w, self, Raised e)
  | (w, Returned _) => (w, self, Returned tt)
  end end end end.

(** Each line reads the file, then loads it into the network; when the load
    raises, the network already holds the tensors that fitted. *)
Definition load_models (w : World F Rng) (self : Agent)
  : World F Rng * Agent * outcome unit :=
  match torch_load "results/actor.pt" w with
  | Raised e => (w, self, Raised e)
  | Returned sd =>
  let loaded := load_state_dict (actor self) sd in
  let self := set_actor (actor_optimizer self) loaded.1 self in
  match loaded.2 with
  | Raised e => (w, self, Raised e)
  | Returned _ =>
  match torch_load "results/qf1.pt" w with
  | Raised e => (w, self, Raised e)
  | Returned sd =>
  let loaded := load_state_dict (qf1 self) sd in
  let self := set_qf1 (qf1_optimizer self) loaded.1 self in
  match loaded.2 with
  | Raised e => (w, self, Raised e)
  | Returned _ =>
  match torch_load "results/qf2.pt" w with
  | Raised e => (w, self, Raised e)
  | Returned sd =>
  let loaded := load_state_dict (qf2 self) sd in
  let self := set_qf2 (qf2_optimizer self) loaded.1 self in
  match loaded.2 with
  | Raised e => (w, self, Raised e)
  | Returned _ =>
  match torch_load "results/vf.pt" w with
  | Raised e => (w, self, Raised e)
  | Returned sd =>
  let loaded := load_state_dict (vf self) sd in
  let self := set_vf (vf_optimizer self) loaded.1 self in
  match loaded.2 with
  | Raised e => (w, self, Raised e)
  | Returned _ => (w, self, Returned tt)
  end end end end end end end end.

(** *** normalizeState (lines 164-165) *)

Definition normalizeState {A : Type} (self : Agent) (s_t : A) : A := s_t.

End Agent.
Arguments Agent : clear implicits.
Arguments Agent F {_}.
Arguments TransitionAttr F : clear implicits.
Arguments Losses F : clear implicits.
End SAC.

(** ** Shapes of the networks *)

Section Shapes.
Context {F : Type} `{Scalar F} `{Torch F} {Rng : Type} `{Nets F Rng}.

(** Two modules built by the same constructor on the same dimensions have
    parameters of the same sizes, whatever their random initial values. *)
Definition shapes_by_dims : Prop :=
  (∀ sd ad r r', shape (Actor sd ad r).1 = shape (Actor sd ad r').1)
  ∧ (∀ d r r', shape (CriticV d r).1 = shape (CriticV d r').1)
  ∧ (∀ d r r', shape (CriticQ d r).1 = shape (CriticQ d r').1).

(** The four persisted networks of [a] have the sizes that go with state
    dimension [sd] and action dimension [ad]. *)
Definition has_dims (sd ad : nat) (a : SAC.Agent F) : Prop :=
  ∃ r1 r2 r3 r4,
    shape (SAC.actor a) = shape (Actor sd ad r1).1
    ∧ shape (SAC.qf1 a) = shape (CriticQ (sd + ad) r2).1
    ∧ shape (SAC.qf2 a) = shape (CriticQ (sd + ad) r3).1
    ∧ shape (SAC.vf a) = shape (CriticV sd r4).1.

(** Optimiser steps update tensors in place: sizes stay. *)
Definition opt_keeps_shape : Prop :=
  (∀ (o : OptState (Params F)) p g, shape (opt_step o p g).2 = shape p)
  ∧ (∀ (o : OptState (list F)) p g, length (opt_step o p g).2 = length p).

(** What every reachable agent satisfies: [log_alpha] has one element and the
    target value network has the shape of the online one. *)
Definition well_shaped (self : SAC.Agent F) : Prop :=
  length (SAC.log_alpha self) = 1
  ∧ shape (SAC.vf_target self) = shape (SAC.vf self).

End Shapes.

(** ** A small executable instance

    Integers as scalars, with toy networks, to run the model on concrete
    inputs. *)

Module Toy.

Definition zsum (l : list Z) : Z := foldr Z.add 0%Z l.

#[export] Instance scalar : Scalar Z := {|
  of_Z := λ z, z;
  lit := λ m e, (m * 10 ^ e)%Z;
  fadd := Z.add;
  fsub := Z.sub;
  fmul := Z.mul;
  fneg := Z.opp;
  fexp := λ x, (2 ^ x)%Z;
  fminimum := Z.min;
  fmaximum := Z.max;
  fleb := Z.leb;
  fmean := λ l, (zsum l / Z.of_nat (length l))%Z
|}.

(** The optimiser state counts the steps taken; a step moves the parameters
    to where the gradient oracle points. *)
#[export] Instance torch : Torch Z := {|
  OptState := λ _, nat;
  Adam := λ _ _ _, 0;
  backward := λ _ _ p, p;
  opt_step := λ _ o _ g, (S o, g)
|}.

#[export] Instance sampler : Sampler nat := {|
  choice := λ r n k, ((λ j, (r + j) `mod` n) <$> seq 0 k, r + k)
|}.

(** An actor with one bias vector, which it returns as the action; critics
    with a single weight. *)
#[export] Instance nets : Nets Z nat := {|
  Actor := λ _ ad r, ([replicate ad (Z.of_nat r)], S r);
  Actor_forward := λ θ r states,
    (((λ _, default [] (θ !! 0)) <$> states, zsum <$> states), S r);
  Actor_forward1 := λ θ r state, ((default [] (θ !! 0), [zsum state]), S r);
  CriticV := λ _ r, ([[Z.of_nat r]], S r);
  CriticV_forward := λ θ states, (λ s, zsum (concat θ) + zsum s)%Z <$> states;
  CriticQ := λ _ r, ([[Z.of_nat r]], S r);
  CriticQ_forward := λ θ states actions,
    zip_with (λ s a, zsum (concat θ) + zsum s + zsum a)%Z states actions
|}.

Definition hp : Hyper Z :=
  {| GAMMMA := 2%Z; TAU := 1%Z; INITIAL_RANDOM_STEPS := 0; POLICY_UPDATE_FREQUENCE := 2;
     BUFFER_SIZE := 4; BATCH_SIZE := 2; LR_A := 1%Z; LR_Q := 1%Z |}.

Definition world : World Z nat :=
  {| torch_rng := 5; np_rng := 0; dirs := {["results"]}; files := ∅; calls := [] |}.

(** An agent with state dimension 3 and action dimension 2, as the
    constructor builds it from [world]. *)
Definition agent : SAC.Agent Z :=
  {| SAC.statedim := 3;
     SAC.actiondim := 2;
     SAC.memory := ReplayBuffer.new 3 2 4 2;
     SAC.target_alpha := -2;
     SAC.log_alpha := [0%Z];
     SAC.alpha_optimizer := 0;
     SAC.actor := [[5; 5]%Z];
     SAC.vf := [[6%Z]];
     SAC.vf_target := [[6%Z]];
     SAC.qf1 := [[8%Z]];
     SAC.qf2 := [[9%Z]];
     SAC.actor_optimizer := 0;
     SAC.vf_optimizer := 0;
     SAC.qf1_optimizer := 0;
     SAC.qf2_optimizer := 0;
     SAC.transition := SAC.NoTransition;
     SAC.total_step := 0;
     SAC.is_test := false |}.

(** The agent after three rounds of [step] and [store_transition]. *)
Definition agent3 : SAC.Agent Z :=
  let a1 := (SAC.store_transition world (SAC.step world agent [1; 2; 3]%Z).1.2
               [1; 2; 3]%Z [2; 3; 4]%Z 1%Z [1; -1]%Z false).1.2 in
  let a2 := (SAC.store_transition world (SAC.step world a1 [2; 3; 4]%Z).1.2
               [2; 3; 4]%Z [3; 4; 5]%Z 2%Z [0; 1]%Z false).1.2 in
  (SAC.store_transition world (SAC.step world a2 [3; 4; 5]%Z).1.2
     [3; 4; 5]%Z [0; 0; 0]%Z 3%Z [1; 1]%Z true).1.2.

(** One more [step]: the step counter is now 4, a multiple of the toy
    policy-update frequency. *)
Definition agent4 : SAC.Agent Z := (SAC.step world agent3 [0; 0; 0]%Z).1.2.

(** The batch that [sample_batch] draws from the buffer of [agent3] when
    numpy's generator is in state 0. *)
Definition samples : ReplayBuffer.Batch Z :=
  {| ReplayBuffer.obs := [[1; 2; 3]; [2; 3; 4]]%Z;
     ReplayBuffer.next_obs := [[2; 3; 4]; [3; 4; 5]]%Z;
     ReplayBuffer.acts := [[1; -1]; [0; 1]]%Z;
     ReplayBuffer.rews := [1; 2]%Z;
     ReplayBuffer.done := [false; false] |}.

(** An agent whose target value network differs from the online one. *)
Definition agent_tv : SAC.Agent Z :=
  SAC.set_vf_target [[1; 2]; [3]]%Z (SAC.set_vf 0 [[6; 7]; [8]]%Z agent).

(** A second agent of the same dimensions, built from another state of
    torch's generator. *)
Definition fresh : SAC.Agent Z :=
  match (SAC.__init__ hp 2 3 (set_torch_rng 20 world)).2 with
  | Returned b => b
  | Raised _ => agent
  end.

Definition hp_tau (tau : Z) : Hyper Z :=
  {| GAMMMA := 2%Z; TAU := tau; INITIAL_RANDOM_STEPS := 0; POLICY_UPDATE_FREQUENCE := 2;
     BUFFER_SIZE := 4; BATCH_SIZE := 2; LR_A := 1%Z; LR_Q := 1%Z |}.

End Toy.

(** ** Sequences of method calls

    The agent is driven from outside by calls of its public methods, one
    after the other; an exception that a method raises ends the sequence. *)

Inductive Method (F : Type) :=
  | call_step (state : list F)
  | call_store_transition (state new_state : list F) (reward : F) (action : list F)
      (done : bool)
  | call_train
  | call_update_model
  | call_save_models
  | call_load_models.
Arguments call_step {F}.
Arguments call_store_transition {F}.
Arguments call_train {F}.
Arguments call_update_model {F}.
Arguments call_save_models {F}.
Arguments call_load_models {F}.

(** Calls that leave learning alone as long as [train] is not yet ready:
    everything but a direct [update_model] and [load_models]. *)
Definition is_passive {F : Type} (m : Method F) : bool :=
  match m with
  | call_update_model | call_load_models => false
  | _ => true
  end.

Definition is_step {F : Type} (m : Method F) : bool :=
  match m with
  | call_step _ => true
  | _ => false
  end.

Definition count_steps {F : Type} (ms : list (Method F)) : nat :=
  length (filter (λ m, is_step m = true) ms).

Section Runs.
Context {F : Type} `{Scalar F} `{Torch F} {Rng : Type} `{Sampler Rng} `{Nets F Rng}.

(** One call; what the method returns is dropped. *)
Definition exec (hp : Hyper F) (w : World F Rng) (self : SAC.Agent F) (m : Method F)
  : World F Rng * SAC.Agent F * outcome unit :=
  match m with
  | call_step state =>
      let r := SAC.step w self state in (r.1.1, r.1.2, Returned tt)
  | call_store_transition state new_state reward action done =>
      SAC.store_transition w self state new_state reward action done
  | call_train => SAC.train hp w self
  | call_update_model =>
      match SAC.update_model hp w self with
      | (w', self', Returned _) => (w', self', Returned tt)
      | (w', self', Raised e) => (w', self', Raised e)
      end
  | call_save_models => SAC.save_models w self
  | call_load_models => SAC.load_models w self
  end.

Fixpoint run (hp : Hyper F) (w : World F Rng) (self : SAC.Agent F) (ms : list (Method F))
  : World F Rng * SAC.Agent F * outcome unit :=
  match ms with
  | [] => (w, self, Returned tt)
  | m :: ms =>
      match exec hp w self m with
      | (w', self', Returned _) => run hp w' self' ms
      | raised => raised
      end
  end.

(** The condition under which [train] updates (line 80). *)
Definition train_ready (hp : Hyper F) (self : SAC.Agent F) : Prop :=
  BATCH_SIZE hp < ReplayBuffer.len (SAC.memory self)
  ∧ (INITIAL_RANDOM_STEPS hp < SAC.total_step self)%Z.

(** The attributes no method assigns after construction. *)
Definition fixed_attrs (a : SAC.Agent F) : nat * nat * Z * bool :=
  (SAC.statedim a, SAC.actiondim a, SAC.target_alpha a, SAC.is_test a).

(** Everything that learning changes: the six parameter sets and the five
    optimisers. *)
Definition learned (a : SAC.Agent F) :=
  (SAC.log_alpha a, SAC.alpha_optimizer a, SAC.actor a, SAC.actor_optimizer a,
   SAC.vf a, SAC.vf_optimizer a, SAC.vf_target a,
   SAC.qf1 a, SAC.qf1_optimizer a, SAC.qf2 a, SAC.qf2_optimizer a).

End Runs.

(** What leaves a value inside the clipping interval as it is.  Floating-point
    minimum and maximum return one of their arguments, this one when the
    comparison holds. *)
Class ClipExact (F : Type) `{Scalar F} : Prop := {
  fmaximum_l : ∀ x y, fleb y x = true → fmaximum x y = x;
  fminimum_r : ∀ x y, fleb y x = true → fminimum x y = y
}.

Module ToyRun.
Import Toy.

(** Warm-up of five steps. *)
Definition hp_warm : Hyper Z :=
  {| GAMMMA := 2%Z; TAU := 1%Z; INITIAL_RANDOM_STEPS := 5; POLICY_UPDATE_FREQUENCE := 2;
     BUFFER_SIZE := 4; BATCH_SIZE := 2; LR_A := 1%Z; LR_Q := 1%Z |}.


(** Three rounds of acting, storing and training, then saving. *)
Definition session : list (Method Z) :=
  [call_step [1; 2; 3]%Z;
   call_store_transition [1; 2; 3]%Z [2; 3; 4]%Z 1%Z [1; -1]%Z false;
   call_train;
   call_step [2; 3; 4]%Z;
   call_store_transition [2; 3; 4]%Z [3; 4; 5]%Z 2%Z [0; 1]%Z false;
   call_train;
   call_step [3; 4; 5]%Z;
   call_store_transition [3; 4; 5]%Z [0; 0; 0]%Z 3%Z [1; 1]%Z true;
   call_train;
   call_save_models].

(** A world without the results directory. *)
Definition world_nodir : World Z nat :=
  {| torch_rng := 5; np_rng := 0; dirs := ∅; files := ∅; calls := [] |}.

(** A world in which only the actor has been saved. *)
Definition world_actor_only : World Z nat :=
  {| torch_rng := 5; np_rng := 0; dirs := {["results"]};
     files := {["results/actor.pt" := [[7; 7]%Z] ]}; calls := [] |}.

(** A world in which the saved actor has three outputs instead of two. *)
Definition world_bad_actor : World Z nat :=
  {| torch_rng := 5; np_rng := 0; dirs := {["results"]};
     files := {["results/actor.pt" := [[7; 7; 7]%Z] ]}; calls := [] |}.

(** A world in which the saved actor has two tensors, the first of two
    elements and the second of three. *)
Definition world_half_actor : World Z nat :=
  {| torch_rng := 5; np_rng := 0; dirs := {["results"]};
     files := {["results/actor.pt" := [[7; 7]; [8; 8; 8]]%Z ]}; calls := [] |}.

(** An agent whose actor has two tensors, of two elements and of one. *)
Definition agent_two : SAC.Agent Z := SAC.set_actor 0 [[1; 0]; [2]]%Z agent.

(** An agent whose target network has one tensor more than the online one. *)
Definition agent_surplus : SAC.Agent Z :=
  SAC.set_vf_target [[1; 2]; [3]; [4; 5]]%Z (SAC.set_vf 0 [[6; 7]; [8]]%Z agent).

(** An agent whose actor returns an action inside the clipping interval. *)
Definition agent_small : SAC.Agent Z := SAC.set_actor 0 [[1; 0]%Z] agent.

(** An optimiser that counts its steps and leaves the parameters where they
    are. *)
Definition torch_still : Torch Z := {|
  OptState := λ _, nat;
  Adam := λ _ _ _, 0;
  backward := λ _ _ p, p;
  opt_step := λ _ o p _, (S o, p)
|}.

End ToyRun.

(** ** An instance with infinities and NaN

    Integers with the two infinities and a NaN, and the arithmetic and
    comparison rules that IEEE floats have for them: a NaN operand gives NaN,
    infinity minus infinity and zero times infinity are NaN, a comparison
    with NaN is false, minimum and maximum propagate NaN as numpy's do. *)

Module Ieee.

Inductive xfloat :=
  | Fin (z : Z)
  | PInf
  | NInf
  | NaN.

Definition xneg (x : xfloat) : xfloat :=
  match x with
  | Fin z => Fin (- z)
  | PInf => NInf
  | NInf => PInf
  | NaN => NaN
  end.

Definition xadd (x y : xfloat) : xfloat :=
  match x, y with
  | NaN, _ | _, NaN => NaN
  | PInf, NInf | NInf, PInf => NaN
  | PInf, _ | _, PInf => PInf
  | NInf, _ | _, NInf => NInf
  | Fin a, Fin b => Fin (a + b)
  end.

(** An infinity of the sign of [z], NaN when [z] is zero. *)
Definition xinf (z : Z) : xfloat :=
  match z with
  | Z0 => NaN
  | Zpos _ => PInf
  | Zneg _ => NInf
  end.

Definition xmul (x y : xfloat) : xfloat :=
  match x, y with
  | NaN, _ | _, NaN => NaN
  | Fin a, Fin b => Fin (a * b)
  | Fin a, PInf | PInf, Fin a => xinf a
  | Fin a, NInf | NInf, Fin a => xinf (- a)
  | PInf, PInf | NInf, NInf => PInf
  | PInf, NInf | NInf, PInf => NInf
  end.

Definition xleb (x y : xfloat) : bool :=
  match x, y with
  | NaN, _ | _, NaN => false
  | NInf, _ | _, PInf => true
  | Fin a, Fin b => (a <=? b)%Z
  | _, _ => false
  end.

Definition xmin (x y : xfloat) : xfloat :=
  match x, y with
  | NaN, _ | _, NaN => NaN
  | _, _ => if xleb x y then x else y
  end.

Definition xmax (x y : xfloat) : xfloat :=
  match x, y with
  | NaN, _ | _, NaN => NaN
  | _, _ => if xleb x y then y else x
  end.

Definition xexp (x : xfloat) : xfloat :=
  match x with
  | Fin z => Fin (2 ^ z)
  | PInf => PInf
  | NInf => Fin 0
  | NaN => NaN
  end.

Definition xmean (l : list xfloat) : xfloat :=
  match l with
  | [] => NaN
  | _ =>
      match foldr xadd (Fin 0) l with
      | Fin s => Fin (s / Z.of_nat (length l))
      | other => other
      end
  end.

#[export] Instance scalar : Scalar xfloat := {|
  of_Z := Fin;
  lit := λ m e, Fin (m * 10 ^ e);
  fadd := xadd;
  fsub := λ x y, xadd x (xneg y);
  fmul := xmul;
  fneg := xneg;
  fexp := xexp;
  fminimum := xmin;
  fmaximum := xmax;
  fleb := xleb;
  fmean := xmean
|}.

#[export] Instance torch : Torch xfloat := {|
  OptState := λ _, nat;
  Adam := λ _ _ _, 0;
  backward := λ _ _ p, p;
  opt_step := λ _ o _ g, (S o, g)
|}.

(** An actor that returns its one bias vector as the action; critics with a
    single weight that they add up with their inputs. *)
#[export] Instance nets : Nets xfloat nat := {|
  Actor := λ _ ad r, ([replicate ad (Fin (Z.of_nat r))], S r);
  Actor_forward := λ θ r states,
    (((λ _, default [] (θ !! 0)) <$> states, (foldr xadd (Fin 0)) <$> states), S r);
  Actor_forward1 := λ θ r state, ((default [] (θ !! 0), [foldr xadd (Fin 0) state]), S r);
  CriticV := λ _ r, ([[Fin (Z.of_nat r)]], S r);
  CriticV_forward := λ θ states,
    (λ s, xadd (foldr xadd (Fin 0) (concat θ)) (foldr xadd (Fin 0) s)) <$> states;
  CriticQ := λ _ r, ([[Fin (Z.of_nat r)]], S r);
  CriticQ_forward := λ θ states actions,
    zip_with (λ s a, xadd (foldr xadd (Fin 0) (concat θ))
                       (xadd (foldr xadd (Fin 0) s) (foldr xadd (Fin 0) a)))
      states actions
|}.

Definition hp_tau (tau : xfloat) : Hyper xfloat :=
  {| GAMMMA := Fin 2; TAU := tau; INITIAL_RANDOM_STEPS := 0; POLICY_UPDATE_FREQUENCE := 2;
     BUFFER_SIZE := 4; BATCH_SIZE := 2; LR_A := Fin 1; LR_Q := Fin 1 |}.

Definition world : World xfloat nat :=
  {| torch_rng := 5; np_rng := 0; dirs := {["results"]}; files := ∅; calls := [] |}.

(** An agent with state dimension 3 and action dimension 2, with the given
    actor bias, target and online value parameters. *)
Definition agent_with (actor_bias : list xfloat) (vf_target vf : Params xfloat)
  : SAC.Agent xfloat :=
  {| SAC.statedim := 3;
     SAC.actiondim := 2;
     SAC.memory := ReplayBuffer.new 3 2 4 2;
     SAC.target_alpha := -2;
     SAC.log_alpha := [Fin 0];
     SAC.alpha_optimizer := 0;
     SAC.actor := [actor_bias];
     SAC.vf := vf;
     SAC.vf_target := vf_target;
     SAC.qf1 := [[Fin 8]];
     SAC.qf2 := [[Fin 9]];
     SAC.actor_optimizer := 0;
     SAC.vf_optimizer := 0;
     SAC.qf1_optimizer := 0;
     SAC.qf2_optimizer := 0;
     SAC.transition := SAC.NoTransition;
     SAC.total_step := 0;
     SAC.is_test := false |}.

(** The actor's action has a NaN and a value above the interval. *)
Definition agent_nan : SAC.Agent xfloat :=
  agent_with [NaN; Fin 5] [[Fin 6]] [[Fin 6]].




End Ieee.

(** * Properties *)

(** ** Lists, reshape and the clipping helper *)

(** A state dict of the module's own shape is copied whole; whatever is
    copied, the sizes of the module's tensors stay. *)
Lemma copy_fitting_same_shape {F : Type} (own sd : Params F) :
  shape own = shape sd → copy_fitting own sd = sd.
Proof.
  revert sd. induction own as [|o own IH]; intros [|t sd] Hshape; try done.
  injection Hshape as Hlen Hrest. cbn.
  destruct (decide _); [|done]. f_equal. by apply IH.
Qed.

Lemma copy_fitting_shape {F : Type} (own sd : Params F) :
  shape (copy_fitting own sd) = shape own.
Proof.
  revert sd. induction own as [|o own IH]; intros [|t sd]; try done.
  specialize (IH sd). unfold shape in *. cbn. f_equal; [|exact IH].
  by destruct (decide _).
Qed.

(** A state dict of the module's shape loads whole. *)
Lemma load_state_dict_fits {F : Type} (own sd : Params F) :
  shape own = shape sd → load_state_dict own sd = (sd, Returned tt).
Proof.
  intros Hshape. unfold load_state_dict. rewrite (copy_fitting_same_shape _ _ Hshape).
  by destruct (decide _).
Qed.

(** Tensor by tensor: the saved one where the sizes agree, the module's own
    otherwise. *)
Lemma copy_fitting_lookup {F : Type} (own sd : Params F) (i : nat) (o : list F) :
  own !! i = Some o →
  copy_fitting own sd !! i
  = Some (match sd !! i with
          | Some t => if decide (length o = length t) then t else o
          | None => o
          end).
Proof.
  revert sd i. induction own as [|o' own IH]; intros sd i Ho; [done|].
  destruct sd as [|t sd].
  - cbn. by rewrite Ho.
  - destruct i as [|i]; cbn in Ho |- *.
    + by injection Ho as ->.
    + by apply IH.
Qed.

Lemma chunks_concat {A : Type} (k : nat) (rows : list (list A)) (fuel : nat) :
  0 < k → Forall (λ r, length r = k) rows → length rows ≤ fuel →
  chunks fuel k (concat rows) = rows.
Proof.
  intros Hk Hrows. revert fuel.
  induction Hrows as [|r rows Hr _ IH]; intros fuel Hfuel.
  - destruct fuel; reflexivity.
  - destruct fuel as [|fuel]; [simpl in Hfuel; lia|].
    simpl in Hfuel. cbn [concat chunks].
    destruct (r ++ concat rows) as [|x l] eqn:E.
    + apply (f_equal length) in E. rewrite length_app in E. simpl in E. lia.
    + rewrite <- E, <- Hr. rewrite take_app_length, drop_app_length.
      f_equal. rewrite Hr. apply IH. lia.
Qed.

Lemma length_concat_rows {A : Type} (k : nat) (rows : list (list A)) :
  Forall (λ r, length r = k) rows → length (concat rows) = k * length rows.
Proof.
  induction 1 as [|r rows Hr _ IH]; simpl; [lia|].
  rewrite length_app, IH, Hr. lia.
Qed.

(** Reshaping a batch whose rows already have [k] entries gives it back. *)
Lemma reshape_rows_id {A : Type} (k : nat) (rows : list (list A)) :
  0 < k → Forall (λ r, length r = k) rows → reshape_rows k rows = Returned rows.
Proof.
  intros Hk Hrows. unfold reshape_rows.
  pose proof (length_concat_rows k rows Hrows) as Hlen.
  destruct (decide (k = 0)) as [->|_]; [lia|].
  destruct (decide (length (concat rows) `mod` k = 0)) as [_|Hne].
  - f_equal. apply chunks_concat; [done..|]. rewrite Hlen. nia.
  - exfalso. apply Hne. rewrite Hlen, Nat.mul_comm. apply Nat.Div0.mod_mul.
Qed.

Section Properties.
Context {F : Type} `{Scalar F} `{Torch F} {Rng : Type} `{Sampler Rng} `{Nets F Rng}.

(** Clipping a number gives a number of the interval; clipping a NaN gives a
    NaN. *)
Lemma np_clip_num `{!FloatOrder F} (x : F) :
  is_num x = true →
  fleb (of_Z (-1)) (np_clip x (of_Z (-1)) (of_Z 1)) = true
  ∧ fleb (np_clip x (of_Z (-1)) (of_Z 1)) (of_Z 1) = true.
Proof.
  intros Hx. unfold np_clip.
  pose proof (fle_num_l _ _ fle_m1_1) as Hlo.
  pose proof (fle_num_r _ _ fle_m1_1) as Hhi.
  pose proof (fmaximum_ge_r x (of_Z (-1)) Hx Hlo) as Hmax.
  split.
  - apply fminimum_glb; [apply fle_m1_1 | exact Hmax].
  - apply fminimum_le_l; [exact Hhi | exact (fle_num_r _ _ Hmax)].
Qed.

Lemma np_clip_nan `{!FloatOrder F} (x : F) :
  is_num x = false → is_num (np_clip x (of_Z (-1)) (of_Z 1)) = false.
Proof.
  intros Hx. unfold np_clip. apply fminimum_nan_r. by apply fmaximum_nan_l.
Qed.

(** *** The Q-critic target *)

Lemma q_target_lookup hp (reward vnext : list F) (done : list bool) i r v d :
  reward !! i = Some r → vnext !! i = Some v → done !! i = Some d →
  SAC.q_target_of hp reward vnext (of_bool <$> done) !! i
  = Some (fadd r (fmul (fmul (GAMMMA hp) v) (fsub (of_Z 1) (of_bool d)))).
Proof.
  intros Hr Hv Hd. unfold SAC.q_target_of.
  rewrite !lookup_zip_with, !list_lookup_fmap, Hr, Hv, Hd. reflexivity.
Qed.

Lemma q_target_length hp (reward vnext : list F) (done : list bool) :
  length (SAC.q_target_of hp reward vnext (of_bool <$> done))
  = length reward `min` (length vnext `min` length done).
Proof. unfold SAC.q_target_of. rewrite !length_zip_with, !length_fmap. reflexivity. Qed.

End Properties.

(** Runs [update_model] up to the policy branch on a batch [Hs] of
    well-shaped actions [Hk], [Hacts]. *)
Ltac run_update Hs Hk Hacts :=
  unfold SAC.update_model; cbn [np_rng log]; rewrite Hs;
  rewrite (reshape_rows_id _ _ Hk Hacts);
  destruct (decide (POLICY_UPDATE_FREQUENCE _ = 0%Z)) as [|_]; [done|].

Section UpdateModel.
Context {F : Type} `{Scalar F} `{Torch F} {Rng : Type} `{Sampler Rng} `{Nets F Rng}.

(** C1.  When [update_model] runs on a sampled batch, there is one target
    [q_target], whose i-th entry is
    [reward_i + (GAMMMA * TargetV(next_state)_i) * (1 - done_i)] and which is a
    constant of both critic losses (detached); the returned Q loss is the sum
    of the mean-squared errors between that target and each critic's
    prediction on the stored (state, action) pairs of the batch, and each
    critic's step follows the gradient of its own such error. *)
Theorem update_model_q_losses (hp : Hyper F) (w : World F Rng) (self : SAC.Agent F)
    (samples : ReplayBuffer.Batch F) (nr : Rng) :
  ReplayBuffer.sample_batch (SAC.memory self) (np_rng w) = Returned (samples, nr) →
  0 < SAC.actiondim self →
  Forall (λ a, length a = SAC.actiondim self) (ReplayBuffer.acts samples) →
  POLICY_UPDATE_FREQUENCE hp ≠ 0%Z →
  let state := ReplayBuffer.obs samples in
  let action := ReplayBuffer.acts samples in
  let reward := ReplayBuffer.rews samples in
  let done := ReplayBuffer.done samples in
  let vnext := CriticV_forward (SAC.vf_target self) (ReplayBuffer.next_obs samples) in
  ∃ (q_target : list F) w' self' losses,
    SAC.update_model hp w self = (w', self', Returned losses)
    ∧ length q_target = length reward `min` (length vnext `min` length done)
    ∧ (∀ i r v d, reward !! i = Some r → vnext !! i = Some v → done !! i = Some d →
         q_target !! i
         = Some (fadd r (fmul (fmul (GAMMMA hp) v) (fsub (of_Z 1) (of_bool d)))))
    ∧ SAC.qf_loss losses
      = fadd (mse_loss q_target (CriticQ_forward (SAC.qf1 self) state action))
             (mse_loss q_target (CriticQ_forward (SAC.qf2 self) state action))
    ∧ SAC.qf1 self'
      = (opt_step (SAC.qf1_optimizer self) (SAC.qf1 self)
           (backward (λ θ, mse_loss q_target (CriticQ_forward θ state action))
              (SAC.qf1 self))).2
    ∧ SAC.qf2 self'
      = (opt_step (SAC.qf2_optimizer self) (SAC.qf2 self)
           (backward (λ θ, mse_loss q_target (CriticQ_forward θ state action))
              (SAC.qf2 self))).2.
Proof.
  intros Hs Hk Hacts Hfreq state action reward done vnext.
  exists (SAC.q_target_of hp reward vnext (of_bool <$> done)).
  run_update Hs Hk Hacts.
  eexists _, _, _. split; [reflexivity|].
  split; [apply q_target_length|].
  split; [intros; by apply q_target_lookup|].
  destruct (decide _); cbn; auto.
Qed.

(** C2.  With [log_alpha] holding the single value [la]:
    the returned temperature loss is the mean over the batch of
    [-exp(la) * (log_prob_i + target_alpha)], and as a function of
    [log_alpha] the loss keeps [log_prob + target_alpha] fixed (stopgrad);
    the step it drives acts on [log_alpha] alone and yields the agent's new
    [log_alpha] and temperature optimiser; [alpha] is the exponential of the
    new value [la'], and it is this [alpha] that enters the V target
    [q_pred - alpha * log_prob] and, on a policy-update call, the actor loss;
    the Q loss and the critics' new parameters are the same whatever
    [log_alpha] and its optimiser were. *)
Theorem update_model_alpha (hp : Hyper F) (w : World F Rng) (self : SAC.Agent F)
    (samples : ReplayBuffer.Batch F) (nr : Rng) (la la' : F) :
  ReplayBuffer.sample_batch (SAC.memory self) (np_rng w) = Returned (samples, nr) →
  0 < SAC.actiondim self →
  Forall (λ a, length a = SAC.actiondim self) (ReplayBuffer.acts samples) →
  POLICY_UPDATE_FREQUENCE hp ≠ 0%Z →
  SAC.log_alpha self = [la] →
  let state := ReplayBuffer.obs samples in
  let out := (Actor_forward (SAC.actor self) (torch_rng w) state).1 in
  let new_action := out.1 in
  let log_prob := out.2 in
  let target := of_Z (SAC.target_alpha self) in
  let a_step :=
    opt_step (SAC.alpha_optimizer self) [la]
      (backward (λ x, SAC.alpha_loss_of x log_prob (SAC.target_alpha self)) [la]) in
  a_step.2 = [la'] →
  let q_pred :=
    zip_with fminimum (CriticQ_forward (SAC.qf1 self) state new_action)
                      (CriticQ_forward (SAC.qf2 self) state new_action) in
  let v_pred := CriticV_forward (SAC.vf self) state in
  ∃ w' self' losses,
    SAC.update_model hp w self = (w', self', Returned losses)
    ∧ SAC.alpha_loss losses
      = fmean ((λ lp, fmul (fneg (fexp la)) (fadd lp target)) <$> log_prob)
    ∧ (∀ x, SAC.alpha_loss_of [x] log_prob (SAC.target_alpha self)
            = fmean ((λ lp, fmul (fneg (fexp x)) (fadd lp target)) <$> log_prob))
    ∧ SAC.log_alpha self' = [la']
    ∧ SAC.alpha_optimizer self' = a_step.1
    ∧ SAC.v_loss losses
      = mse_loss v_pred (zip_with (λ q lp, fsub q (fmul (fexp la') lp)) q_pred log_prob)
    ∧ ((SAC.total_step self `mod` POLICY_UPDATE_FREQUENCE hp)%Z = 0%Z →
       SAC.actor_loss losses
       = fmean (zip_with fsub (fmul (fexp la') <$> log_prob) (zip_with fsub q_pred v_pred)))
    ∧ (∀ o2 la2, ∃ w2 self2 losses2,
         SAC.update_model hp w (SAC.set_alpha o2 la2 self) = (w2, self2, Returned losses2)
         ∧ SAC.qf_loss losses2 = SAC.qf_loss losses
         ∧ SAC.qf1 self2 = SAC.qf1 self'
         ∧ SAC.qf2 self2 = SAC.qf2 self').
Proof.
  intros Hs Hk Hacts Hfreq Hla state out new_action log_prob target a_step Hla' q_pred v_pred.
  assert (Hloss : ∀ x, SAC.alpha_loss_of [x] log_prob (SAC.target_alpha self)
            = fmean ((λ lp, fmul (fneg (fexp x)) (fadd lp target)) <$> log_prob)).
  { intros x. unfold SAC.alpha_loss_of. cbn [fmap list_fmap bcast].
    by rewrite <- list_fmap_compose. }
  run_update Hs Hk Hacts.
  eexists _, _, _. split; [reflexivity|].
  cbn [SAC.alpha_loss SAC.v_loss SAC.actor_loss].
  split; [rewrite Hla; apply Hloss|].
  split; [exact Hloss|].
  assert (Hv : zip_with fsub q_pred (bcast fmul (fexp <$> [la']) log_prob)
               = zip_with (λ q lp, fsub q (fmul (fexp la') lp)) q_pred log_prob).
  { cbn [fmap list_fmap bcast]. by rewrite zip_with_fmap_r. }
  subst state out new_action log_prob target a_step q_pred v_pred.
  split.
  { destruct (decide _); cbn; rewrite Hla; exact Hla'. }
  split.
  { destruct (decide _); cbn; rewrite Hla; reflexivity. }
  split.
  { cbn. rewrite Hla, Hla'. unfold SAC.q_pred_of. rewrite Hv. reflexivity. }
  split.
  { intros Hmod. cbn [SAC.set_alpha SAC.total_step].
    destruct (decide _) as [_|Hne]; [|done].
    cbn. unfold SAC.actor_loss_of. cbn. rewrite Hla, Hla'. reflexivity. }
  intros o2 la2. cbn [SAC.set_alpha SAC.memory SAC.actiondim]. rewrite Hs.
  rewrite (reshape_rows_id _ _ Hk Hacts).
  destruct (decide (POLICY_UPDATE_FREQUENCE hp = 0%Z)) as [|_]; [done|].
  eexists _, _, _. split; [reflexivity|].
  cbn [SAC.set_alpha SAC.total_step].
  destruct (decide _); cbn; auto.
Qed.

(** C3.  The actor's gradient step, on the loss
    [mean(alpha * log_prob - (q_pred - V(state)))] with [q_pred] the
    elementwise minimum of the two Q-critics on the resampled action and
    [V(state)] a constant, and the target-V soft update right after it happen
    when [total_step] is a multiple of [POLICY_UPDATE_FREQUENCE]; on any other
    call the returned actor loss is zero and the actor, its optimiser and the
    target-V parameters are as before. *)
Theorem update_model_policy_cadence (hp : Hyper F) (w : World F Rng) (self : SAC.Agent F)
    (samples : ReplayBuffer.Batch F) (nr : Rng) :
  ReplayBuffer.sample_batch (SAC.memory self) (np_rng w) = Returned (samples, nr) →
  0 < SAC.actiondim self →
  Forall (λ a, length a = SAC.actiondim self) (ReplayBuffer.acts samples) →
  POLICY_UPDATE_FREQUENCE hp ≠ 0%Z →
  let state := ReplayBuffer.obs samples in
  let v_pred := CriticV_forward (SAC.vf self) state in
  ∃ w' self' losses,
    SAC.update_model hp w self = (w', self', Returned losses)
    ∧ let alpha := fexp <$> SAC.log_alpha self' in
      let loss θ :=
        let out := (Actor_forward θ (torch_rng w) state).1 in
        let q_pred :=
          zip_with fminimum (CriticQ_forward (SAC.qf1 self) state out.1)
                            (CriticQ_forward (SAC.qf2 self) state out.1) in
        fmean (zip_with fsub (bcast fmul alpha out.2) (zip_with fsub q_pred v_pred)) in
      let p_step :=
        opt_step (SAC.actor_optimizer self) (SAC.actor self)
          (backward loss (SAC.actor self)) in
      ((SAC.total_step self `mod` POLICY_UPDATE_FREQUENCE hp)%Z = 0%Z →
         SAC.actor_loss losses = loss (SAC.actor self)
         ∧ SAC.actor self' = p_step.2
         ∧ SAC.actor_optimizer self' = p_step.1
         ∧ SAC.vf_target self' = SAC.vf_target (SAC._target_soft_update hp self)
         ∧ calls w' = calls w ++
             [SampleBatch; OptimizerStep OptAlpha; OptimizerStep OptActor; TargetSoftUpdate;
              OptimizerStep OptQf1; OptimizerStep OptQf2; OptimizerStep OptVf])
      ∧ ((SAC.total_step self `mod` POLICY_UPDATE_FREQUENCE hp)%Z ≠ 0%Z →
         SAC.actor_loss losses = of_Z 0
         ∧ SAC.actor self' = SAC.actor self
         ∧ SAC.actor_optimizer self' = SAC.actor_optimizer self
         ∧ SAC.vf_target self' = SAC.vf_target self
         ∧ calls w' = calls w ++
             [SampleBatch; OptimizerStep OptAlpha;
              OptimizerStep OptQf1; OptimizerStep OptQf2; OptimizerStep OptVf]).
Proof.
  intros Hs Hk Hacts Hfreq state v_pred.
  run_update Hs Hk Hacts.
  eexists _, _, _. split; [reflexivity|].
  cbn [SAC.set_alpha SAC.total_step].
  destruct (decide _) as [Hmod|Hmod]; (split; [intros Hm|intros Hm]); try done.
  - cbn. rewrite <- !app_assoc. repeat split; reflexivity.
  - cbn. rewrite <- !app_assoc. repeat split; reflexivity.
Qed.

End UpdateModel.

(** ** The replay buffer keeps its invariant *)

Section BufferInvariant.
Context {F : Type} `{Scalar F}.

Lemma wf_new (obs_dim act_dim size batch : nat) :
  0 < size → ReplayBuffer.wf (ReplayBuffer.new (F:=F) obs_dim act_dim size batch).
Proof.
  intros Hsize. unfold ReplayBuffer.wf, ReplayBuffer.new. cbn.
  rewrite !length_replicate. repeat split; lia.
Qed.

Lemma wf_store (rb : ReplayBuffer.t F) s a r s' d :
  ReplayBuffer.wf rb → ReplayBuffer.wf (ReplayBuffer.store rb s a r s' d).
Proof.
  intros (Ho & Hn & Ha & Hr & Hd & Hp & Hc). unfold ReplayBuffer.wf, ReplayBuffer.store. cbn.
  rewrite !length_insert. repeat split; try done.
  - apply Nat.mod_upper_bound. lia.
  - lia.
Qed.

(** A store writes the transition at the cursor and nowhere else. *)
Lemma slot_store_cursor (rb : ReplayBuffer.t F) s a r s' d :
  ReplayBuffer.wf rb →
  ReplayBuffer.slot (ReplayBuffer.store rb s a r s' d) (ReplayBuffer.ptr rb)
  = Some (s, a, r, s', d).
Proof.
  intros (Ho & Hn & Ha & Hr & Hd & Hp & Hc). unfold ReplayBuffer.slot, ReplayBuffer.store. cbn.
  rewrite !list_lookup_insert_eq by lia. reflexivity.
Qed.

Lemma slot_store_other (rb : ReplayBuffer.t F) s a r s' d (i : nat) :
  i ≠ ReplayBuffer.ptr rb →
  ReplayBuffer.slot (ReplayBuffer.store rb s a r s' d) i = ReplayBuffer.slot rb i.
Proof.
  intros Hi. unfold ReplayBuffer.slot, ReplayBuffer.store. cbn.
  rewrite !list_lookup_insert_ne by done. reflexivity.
Qed.

(** What is gathered comes from the array. *)
Lemma gather_Forall {A : Type} (P : A → Prop) (buf : list A) (idxs : list nat) :
  Forall P buf → Forall P (ReplayBuffer.gather buf idxs).
Proof.
  intros Hbuf. unfold ReplayBuffer.gather.
  induction idxs as [|i idxs IH]; cbn; [constructor|].
  destruct (buf !! i) as [x|] eqn:Hx; [|exact IH].
  constructor; [|exact IH]. rewrite Forall_forall in Hbuf.
  apply Hbuf. by eapply list_elem_of_lookup_2.
Qed.

(** Every action of a sampled batch has the length that every stored action
    has: the condition under which [reshape(-1, actiondim)] leaves the batch
    as it is. *)
Lemma sample_batch_acts {Rng : Type} `{Sampler Rng} (rb : ReplayBuffer.t F) (rng nr : Rng)
    (samples : ReplayBuffer.Batch F) (k : nat) :
  Forall (λ a, length a = k) (ReplayBuffer.acts_buf rb) →
  ReplayBuffer.sample_batch rb rng = Returned (samples, nr) →
  Forall (λ a, length a = k) (ReplayBuffer.acts samples).
Proof.
  intros Hbuf. unfold ReplayBuffer.sample_batch.
  destruct (decide _); [done|]. destruct (choice _ _ _) as [idxs rng'].
  intros [= <- _]. cbn. by apply gather_Forall.
Qed.

Lemma acts_buf_new (obs_dim act_dim size batch : nat) :
  Forall (λ a, length a = act_dim)
    (ReplayBuffer.acts_buf (ReplayBuffer.new (F:=F) obs_dim act_dim size batch)).
Proof. cbn. apply Forall_replicate. apply length_replicate. Qed.

Lemma acts_buf_store (rb : ReplayBuffer.t F) s a r s' d (k : nat) :
  length a = k →
  Forall (λ a, length a = k) (ReplayBuffer.acts_buf rb) →
  Forall (λ a, length a = k) (ReplayBuffer.acts_buf (ReplayBuffer.store rb s a r s' d)).
Proof. intros Ha Hbuf. cbn. by apply Forall_insert. Qed.

End BufferInvariant.

(** ** Soft update of the target network *)

Section SoftUpdate.
Context {F : Type} `{Scalar F} `{Torch F}.

Lemma soft_update_tensor_lookup (hp : Hyper F) (tp lp : list F) (j : nat) (t l : F) :
  tp !! j = Some t → lp !! j = Some l →
  SAC.soft_update_tensor hp tp lp !! j
  = Some (fadd (fmul (TAU hp) l) (fmul (fsub (of_Z 1) (TAU hp)) t)).
Proof.
  intros Ht Hl. unfold SAC.soft_update_tensor.
  rewrite lookup_zip_with, !list_lookup_fmap, Ht, Hl. reflexivity.
Qed.

Lemma soft_update_tensor_length (hp : Hyper F) (tp lp : list F) :
  length tp = length lp → length (SAC.soft_update_tensor hp tp lp) = length tp.
Proof.
  intros Hlen. unfold SAC.soft_update_tensor.
  rewrite length_zip_with, !length_fmap. lia.
Qed.



(** The loop over the zipped parameter lists, on lists of the same shape. *)
Lemma soft_update_params (f : list F → list F → list F) (ts ls : list (list F)) :
  shape ts = shape ls →
  zip_with f ts ls ++ drop (length ls) ts = zip_with f ts ls
  ∧ length (zip_with f ts ls) = length ts.
Proof.
  intros Hshape. apply (f_equal length) in Hshape. unfold shape in Hshape.
  rewrite !length_fmap in Hshape.
  rewrite drop_ge, app_nil_r by lia. split; [done|].
  rewrite length_zip_with. lia.
Qed.

Lemma soft_update_shape (hp : Hyper F) (ts ls : list (list F)) :
  shape ts = shape ls → shape (zip_with (SAC.soft_update_tensor hp) ts ls) = shape ts.
Proof.
  intros Hshape. unfold shape. apply list_eq. intros i.
  rewrite !list_lookup_fmap, lookup_zip_with.
  destruct (ts !! i) as [tp|] eqn:Ht; [|done]. cbn.
  assert (Hi : shape ts !! i = shape ls !! i) by by rewrite Hshape.
  unfold shape in Hi. rewrite !list_lookup_fmap, Ht in Hi.
  destruct (ls !! i) as [lp|] eqn:Hl; [|done]. cbn in *.
  f_equal. apply soft_update_tensor_length. by injection Hi.
Qed.


End SoftUpdate.

(** ** Construction, acting, storing, training, persistence *)

Section Methods.
Context {F : Type} `{Scalar F} `{Torch F} {Rng : Type} `{Sampler Rng} `{Nets F Rng}.

(** C7.  For every action dimension of at least one, construction succeeds
    (two value networks built for the same state dimension have the same
    shape) and the agent's target entropy is exactly [-action_dim]. *)
Theorem init_target_entropy (hp : Hyper F) (action_dim state_dim : nat) (w : World F Rng) :
  1 ≤ action_dim →
  (∀ r r', shape (CriticV state_dim r).1 = shape (CriticV state_dim r').1) →
  ∃ w' agent,
    SAC.__init__ hp action_dim state_dim w = (w', Returned agent)
    ∧ SAC.target_alpha agent = (- Z.of_nat action_dim)%Z.
Proof.
  intros Hdim Hshape. unfold SAC.__init__, load_state_dict.
  destruct (decide _) as [_|Hne].
  - eexists _, _. split; [reflexivity|]. cbn. f_equal. lia.
  - exfalso. apply Hne. apply Hshape.
Qed.

(** C4 (as amended).  [step] returns a list with exactly one row; the row is
    the actor's action for the state, clipped, so it has [action_dim] entries
    when the actor's action has.  Each entry lies in [-1, 1], unless the
    actor's action is NaN at that position: then the entry is NaN.  The step
    counter goes up by one. *)
Theorem step_returns_one_clipped_row `{!FloatOrder F}
    (w : World F Rng) (self : SAC.Agent F) (state : list F) :
  length (Actor_forward1 (SAC.actor self) (torch_rng w) state).1.1 = SAC.actiondim self →
  ∃ row,
    (SAC.step w self state).2 = [row]
    ∧ length row = SAC.actiondim self
    ∧ (∀ i a,
         (Actor_forward1 (SAC.actor self) (torch_rng w) state).1.1 !! i = Some a →
         ∃ x, row !! i = Some x
              ∧ ((is_num a = true
                  ∧ fleb (of_Z (-1)) x = true ∧ fleb x (of_Z 1) = true)
                 ∨ (is_num a = false ∧ is_num x = false)))
    ∧ SAC.total_step (SAC.step w self state).1.2 = (SAC.total_step self + 1)%Z.
Proof.
  intros Hlen. unfold SAC.step. cbn. eexists. split; [reflexivity|].
  split; [by rewrite length_fmap|]. split; [|reflexivity].
  intros i a Ha. rewrite list_lookup_fmap, Ha. cbn. eexists. split; [reflexivity|].
  destruct (is_num a) eqn:Hnum.
  - left. split; [reflexivity|]. by apply np_clip_num.
  - right. split; [reflexivity|]. by apply np_clip_nan.
Qed.

(** C8 (as amended).  In test mode [store_transition] changes nothing.
    Otherwise it sets [self.transition] to the five values, stores them in the
    replay buffer as one transition (at the cursor; every other slot keeps its
    content, and the length grows by one up to the capacity) and leaves every
    other attribute and the world as they were. *)
Theorem store_transition_effect (w : World F Rng) (self : SAC.Agent F)
    (state new_state : list F) (reward : F) (action : list F) (done : bool) :
  let r := SAC.store_transition w self state new_state reward action done in
  let m := SAC.memory self in
  r.1.1 = w ∧ r.2 = Returned tt
  ∧ (SAC.is_test self = true → r.1.2 = self)
  ∧ (SAC.is_test self = false →
       r.1.2 = SAC.set_memory (ReplayBuffer.store m state action reward new_state done)
                 (SAC.set_transition (SAC.Transition state action reward new_state done) self)
       ∧ (∀ i, i ≠ ReplayBuffer.ptr m →
            ReplayBuffer.slot (SAC.memory r.1.2) i = ReplayBuffer.slot m i)
       ∧ ReplayBuffer.len (SAC.memory r.1.2)
         = (ReplayBuffer.len m + 1) `min` ReplayBuffer.max_size m
       ∧ (ReplayBuffer.wf m →
            ReplayBuffer.slot (SAC.memory r.1.2) (ReplayBuffer.ptr m)
            = Some (state, action, reward, new_state, done))).
Proof.
  intros r m. subst r m. unfold SAC.store_transition.
  destruct (SAC.is_test self) eqn:Ht; cbn.
  - repeat split; done.
  - repeat split; try done.
    + intros i Hi. by apply slot_store_other.
    + intros Hwf. by apply slot_store_cursor.
Qed.

(** Whatever [update_model] does, it first asks the buffer for a batch. *)
Lemma update_model_calls (hp : Hyper F) (w : World F Rng) (self : SAC.Agent F) :
  ∃ rest, calls (SAC.update_model hp w self).1.1 = calls w ++ SampleBatch :: rest.
Proof.
  unfold SAC.update_model. cbn [np_rng log].
  destruct (ReplayBuffer.sample_batch _ _) as [[samples nr]|e]; [|by exists []].
  destruct (reshape_rows _ _) as [action|e]; [|by exists []].
  destruct (decide (POLICY_UPDATE_FREQUENCE hp = 0%Z)).
  { eexists. cbn. rewrite <- app_assoc. reflexivity. }
  cbn [SAC.set_alpha SAC.total_step].
  destruct (decide _); eexists; cbn; rewrite <- !app_assoc; reflexivity.
Qed.

(** C5.  [train] runs [update_model] (and with it [sample_batch]) exactly when
    the buffer holds more than [BATCH_SIZE] transitions and [total_step]
    exceeds [INITIAL_RANDOM_STEPS]; that batch request then cannot fail for a
    buffer built with this batch size.  Otherwise [train] returns at once and
    the world and the agent, with all parameters, the buffer and the step
    counter, are unchanged. *)
Theorem train_gate (hp : Hyper F) (w : World F Rng) (self : SAC.Agent F) :
  let ready :=
    BATCH_SIZE hp < ReplayBuffer.len (SAC.memory self)
    ∧ (INITIAL_RANDOM_STEPS hp < SAC.total_step self)%Z in
  (ready →
     (SAC.train hp w self).1 = (SAC.update_model hp w self).1
     ∧ (SAC.train hp w self).2
       = match (SAC.update_model hp w self).2 with
         | Returned _ => Returned tt
         | Raised e => Raised e
         end
     ∧ (ReplayBuffer.batch_size (SAC.memory self) = BATCH_SIZE hp →
          ∃ b, ReplayBuffer.sample_batch (SAC.memory self) (np_rng w) = Returned b))
  ∧ (¬ ready → SAC.train hp w self = (w, self, Returned tt))
  ∧ ((∃ rest, calls (SAC.train hp w self).1.1 = calls w ++ SampleBatch :: rest) ↔ ready).
Proof.
  intros ready. subst ready. unfold SAC.train.
  destruct (decide _) as [Hready|Hnot].
  - assert (Hrun :
      (match SAC.update_model hp w self with
       | (w', self', Returned _) => (w', self', Returned tt)
       | (w', self', Raised e) => (w', self', Raised e)
       end).1 = (SAC.update_model hp w self).1).
    { by destruct (SAC.update_model hp w self) as [[w' self'] [l|e]]. }
    split; [intros _|split; [done|]].
    + split; [exact Hrun|]. split.
      * by destruct (SAC.update_model hp w self) as [[w' self'] [l|e]].
      * intros Hb. unfold ReplayBuffer.sample_batch, ReplayBuffer.len in *.
        destruct (decide _) as [Hlt|_]; [lia|].
        destruct (choice _ _ _). eauto.
    + split; [done|]. intros _. rewrite Hrun. apply update_model_calls.
  - split; [done|]. split; [done|]. split; [|done].
    intros [rest Hrest]. cbn in Hrest. apply (f_equal length) in Hrest.
    rewrite length_app in Hrest. cbn in Hrest. lia.
Qed.

Lemma dirname_results :
  dirname "results/actor.pt" = Some "results" ∧ dirname "results/qf1.pt" = Some "results"
  ∧ dirname "results/qf2.pt" = Some "results" ∧ dirname "results/vf.pt" = Some "results".
Proof. vm_compute. done. Qed.

(** Saving puts the four state dicts under their paths. *)
Lemma save_models_files (w : World F Rng) (a : SAC.Agent F) :
  "results" ∈ dirs w →
  SAC.save_models w a
  = (set_files (<["results/vf.pt" := SAC.vf a]>
               (<["results/qf2.pt" := SAC.qf2 a]>
               (<["results/qf1.pt" := SAC.qf1 a]>
               (<["results/actor.pt" := SAC.actor a]> (files w))))) w,
     a, Returned tt).
Proof.
  intros Hdir. destruct dirname_results as (Da & D1 & D2 & Dv).
  unfold SAC.save_models, torch_save.
  rewrite Da. destruct (decide _) as [_|Hne]; [|done].
  rewrite D1. cbn [dirs set_files]. destruct (decide _) as [_|Hne]; [|done].
  rewrite D2. cbn [dirs set_files]. destruct (decide _) as [_|Hne]; [|done].
  rewrite Dv. cbn [dirs set_files]. destruct (decide _) as [_|Hne]; [|done].
  reflexivity.
Qed.

(** Loading after saving, into any agent whose networks have the shapes of
    the saved ones. *)
Lemma save_then_load (w : World F Rng) (a b : SAC.Agent F) :
  "results" ∈ dirs w →
  shape (SAC.actor b) = shape (SAC.actor a) → shape (SAC.qf1 b) = shape (SAC.qf1 a) →
  shape (SAC.qf2 b) = shape (SAC.qf2 a) → shape (SAC.vf b) = shape (SAC.vf a) →
  ∃ w' b',
    SAC.save_models w a = (w', a, Returned tt)
    ∧ SAC.load_models w' b = (w', b', Returned tt)
    ∧ SAC.actor b' = SAC.actor a ∧ SAC.qf1 b' = SAC.qf1 a
    ∧ SAC.qf2 b' = SAC.qf2 a ∧ SAC.vf b' = SAC.vf a.
Proof.
  intros Hdir Ha Hq1 Hq2 Hv. eexists _, _.
  split; [by apply save_models_files|].
  unfold SAC.load_models, torch_load. cbn.
  rewrite !lookup_insert_ne by done. rewrite lookup_insert_eq.
  rewrite (load_state_dict_fits _ _ Ha). cbn.
  rewrite !lookup_insert_ne by done. rewrite lookup_insert_eq.
  rewrite (load_state_dict_fits _ _ Hq1). cbn.
  rewrite !lookup_insert_ne by done. rewrite lookup_insert_eq.
  rewrite (load_state_dict_fits _ _ Hq2). cbn.
  rewrite lookup_insert_eq.
  rewrite (load_state_dict_fits _ _ Hv). cbn.
  repeat split; reflexivity.
Qed.

(** C9.  Let [a] be an agent whose networks have the shapes of dimensions
    (state_dim, action_dim), and [b] a freshly constructed agent of the same
    dimensions.  Then [save_models] on [a] followed by [load_models] on [b]
    both return, and afterwards the actor, qf1, qf2 and vf parameters of [b]
    are those of [a]. *)
Theorem save_load_roundtrip (hp : Hyper F) (action_dim state_dim : nat)
    (w0 w1 w : World F Rng) (a b : SAC.Agent F) :
  shapes_by_dims →
  has_dims state_dim action_dim a →
  SAC.__init__ hp action_dim state_dim w0 = (w1, Returned b) →
  "results" ∈ dirs w →
  ∃ w' b',
    SAC.save_models w a = (w', a, Returned tt)
    ∧ SAC.load_models w' b = (w', b', Returned tt)
    ∧ SAC.actor b' = SAC.actor a ∧ SAC.qf1 b' = SAC.qf1 a
    ∧ SAC.qf2 b' = SAC.qf2 a ∧ SAC.vf b' = SAC.vf a.
Proof.
  intros (HA & HV & HQ) (r1 & r2 & r3 & r4 & Ha & Hq1 & Hq2 & Hv) Hinit Hdir.
  unfold SAC.__init__, load_state_dict in Hinit. cbn [fst snd] in Hinit.
  destruct (decide _) as [_|]; [|done].
  injection Hinit as _ <-.
  apply save_then_load; [done|..]; cbn.
  - rewrite Ha. apply HA.
  - rewrite Hq1. apply HQ.
  - rewrite Hq2. apply HQ.
  - rewrite Hv. apply HV.
Qed.

(** C10.  [normalizeState] returns its argument unchanged. *)
Theorem normalizeState_identity {A : Type} (self : SAC.Agent F) (s_t : A) :
  SAC.normalizeState self s_t = s_t.
Proof. reflexivity. Qed.

End Methods.

(** ** Reachable agents are well shaped *)

Section Invariant.
Context {F : Type} `{Scalar F} `{Torch F} {Rng : Type} `{Sampler Rng} `{Nets F Rng}.

Lemma init_well_shaped (hp : Hyper F) (action_dim state_dim : nat)
    (w w' : World F Rng) (a : SAC.Agent F) :
  SAC.__init__ hp action_dim state_dim w = (w', Returned a) → well_shaped a.
Proof.
  unfold SAC.__init__, load_state_dict. intros Hinit.
  destruct (decide _) as [Hshape|]; [|done].
  injection Hinit as _ <-. split; [reflexivity|].
  cbn [SAC.vf_target SAC.vf fst snd]. by rewrite (copy_fitting_same_shape _ _ Hshape).
Qed.

Lemma step_well_shaped (w : World F Rng) (self : SAC.Agent F) (state : list F) :
  well_shaped self → well_shaped (SAC.step w self state).1.2.
Proof. intros Hws. exact Hws. Qed.

Lemma store_transition_well_shaped (w : World F Rng) (self : SAC.Agent F) s s' r a d :
  well_shaped self → well_shaped (SAC.store_transition w self s s' r a d).1.2.
Proof.
  intros Hws. unfold SAC.store_transition. destruct (SAC.is_test self); exact Hws.
Qed.

Lemma target_soft_update_well_shaped (hp : Hyper F) (self : SAC.Agent F) :
  well_shaped self → well_shaped (SAC._target_soft_update hp self).
Proof.
  intros [Hla Hshape]. split; [exact Hla|].
  unfold SAC._target_soft_update. cbn [SAC.vf_target SAC.vf SAC.set_vf_target].
  destruct (soft_update_params (SAC.soft_update_tensor hp) _ _ Hshape) as [-> _].
  by rewrite soft_update_shape.
Qed.

Lemma update_model_well_shaped (hp : Hyper F) (w : World F Rng) (self : SAC.Agent F) :
  opt_keeps_shape → well_shaped self → well_shaped (SAC.update_model hp w self).1.2.
Proof.
  intros [Hp Ht] Hws. unfold SAC.update_model. cbn [np_rng log].
  destruct (ReplayBuffer.sample_batch _ _) as [[samples nr]|e]; [|exact Hws].
  destruct (reshape_rows _ _) as [action|e]; [|exact Hws].
  destruct Hws as [Hla Hshape].
  pose proof (soft_update_shape hp _ _ Hshape) as Hsoft.
  destruct (soft_update_params (SAC.soft_update_tensor hp) _ _ Hshape) as [Happ _].
  unfold shape in *.
  destruct (decide (POLICY_UPDATE_FREQUENCE hp = 0%Z)).
  { split; cbn; [by rewrite Ht|done]. }
  destruct (decide _); split; cbn; rewrite ?Ht, ?Hp, ?Happ; congruence.
Qed.

Lemma train_well_shaped (hp : Hyper F) (w : World F Rng) (self : SAC.Agent F) :
  opt_keeps_shape → well_shaped self → well_shaped (SAC.train hp w self).1.2.
Proof.
  intros Hopt Hws. unfold SAC.train. destruct (decide _); [|exact Hws].
  pose proof (update_model_well_shaped hp w self Hopt Hws) as Hup.
  by destruct (SAC.update_model hp w self) as [[w' self'] [l|e]].
Qed.

Lemma load_models_well_shaped (w : World F Rng) (self : SAC.Agent F) :
  well_shaped self → well_shaped (SAC.load_models w self).1.2.
Proof.
  intros [Hla Hshape]. unfold SAC.load_models, load_state_dict. cbn [fst snd].
  assert (∀ sd, shape (SAC.vf_target self) = shape (copy_fitting (SAC.vf self) sd)) as Hvf.
  { intros sd. by rewrite copy_fitting_shape. }
  repeat (destruct (torch_load _ _) as [?|?]; [|by split];
          destruct (decide _) as [?|?]; [|split; [exact Hla|]; first [exact Hshape|apply Hvf]]).
  split; [exact Hla|apply Hvf].
Qed.

End Invariant.

(** ** The properties on the instance with infinities and NaN *)

Section IeeeRuns.
Import Ieee.

(** The order and arithmetic laws hold on the instance with infinities and
    NaN. *)
Ltac xfloat_crush :=
  unfold is_num, feqb, is_finite in *; cbn in *;
  repeat match goal with
    | |- context [(?a <=? ?b)%Z] => destruct (Z.leb_spec a b)
    | H : context [(?a <=? ?b)%Z] |- _ => destruct (Z.leb_spec a b)
    end;
  cbn in *; try done; try lia.

Lemma ieee_float_order : FloatOrder xfloat.
Proof.
  split.
  - intros [a| | |] [b| | |] Hle; xfloat_crush.
  - intros [a| | |] [b| | |] Hle; xfloat_crush.
  - intros [a| | |] [b| | |] Hx Hy; xfloat_crush.
  - intros [a| | |] [b| | |] Hx Hy; xfloat_crush.
  - intros [a| | |] [b| | |] [c| | |] Hx Hy; xfloat_crush.
  - intros [a| | |] [b| | |] Hx; xfloat_crush.
  - intros [a| | |] [b| | |] Hy; xfloat_crush.
  - reflexivity.
Qed.


(** The clipping lets a NaN through: the actor's action [NaN; 5] comes back
    as the one row [NaN; 1]. *)
Example step_passes_nan :
  (SAC.step world agent_nan [Fin 1; Fin 2; Fin 3]).2
  = [[NaN; Fin 1]].
Proof. reflexivity. Qed.

(** C4 (as amended) on an agent whose actor returns [NaN; 5]: the row has
    two entries, the first is NaN and the second lies in [-1, 1]. *)
Lemma step_returns_one_clipped_row_witness :
  length (Actor_forward1 (SAC.actor agent_nan) (torch_rng world)
            [Fin 1; Fin 2; Fin 3]).1.1
  = SAC.actiondim agent_nan
  ∧ ∃ row,
      (SAC.step world agent_nan [Fin 1; Fin 2; Fin 3]).2 = [row]
      ∧ length row = 2
      ∧ (∃ x, row !! 0 = Some x ∧ is_num x = false)
      ∧ (∃ x, row !! 1 = Some x
              ∧ fleb (of_Z (-1)) x = true ∧ fleb x (of_Z 1) = true).
Proof.
  split; [reflexivity|].
  destruct (step_returns_one_clipped_row (FloatOrder0:=ieee_float_order)
              world agent_nan [Fin 1; Fin 2; Fin 3])
    as (row & Hrow & Hlen & Hall & _).
  - reflexivity.
  - exists row. split; [exact Hrow|]. split; [exact Hlen|]. split.
    + destruct (Hall 0 NaN eq_refl) as (x & Hx & [[Hn _]|[_ Hnan]]).
      * discriminate Hn.
      * by exists x.
    + destruct (Hall 1 (Fin 5) eq_refl) as (x & Hx & [[_ Hin]|[Hn _]]).
      * by exists x.
      * discriminate Hn.
Defined.



End IeeeRuns.

(** ** The properties on the executable instance *)

Section ToyRuns.
Import Toy.

Lemma toy_shapes_by_dims : shapes_by_dims (F:=Z) (Rng:=nat).
Proof.
  repeat split; intros; cbn; try done.
  by rewrite !length_replicate.
Qed.

(** The constructor on the toy world builds [Toy.agent]. *)
Example toy_init :
  SAC.__init__ Toy.hp 2 3 Toy.world = (set_torch_rng 10 Toy.world, Returned Toy.agent).
Proof. reflexivity. Qed.

(** Loading when nothing has been saved raises and leaves the agent alone. *)
Example toy_load_missing :
  SAC.load_models Toy.world Toy.agent = (Toy.world, Toy.agent, Raised FileNotFoundError).
Proof. reflexivity. Qed.

(** With the module's own constants every call of [update_model] is a
    policy-update call. *)
Example module_constants_every_call (n : Z) :
  (n `mod` POLICY_UPDATE_FREQUENCE (module_constants (F:=Z)))%Z = 0%Z.
Proof. cbn. apply Z.mod_1_r. Qed.

(** C1 on the toy agent: the two sampled transitions have rewards 1 and 2,
    next-state values 15 and 18 and are not terminal, so with GAMMMA = 2 the
    targets are 31 and 38. *)
Lemma update_model_q_losses_witness :
  ReplayBuffer.sample_batch (SAC.memory agent3) (np_rng world) = Returned (samples, 2)
  ∧ ∃ q_target w' self' losses,
      SAC.update_model hp world agent3 = (w', self', Returned losses)
      ∧ q_target = [31; 38]%Z
      ∧ SAC.qf_loss losses
        = fadd (mse_loss q_target (CriticQ_forward (SAC.qf1 agent3)
                  (ReplayBuffer.obs samples) (ReplayBuffer.acts samples)))
               (mse_loss q_target (CriticQ_forward (SAC.qf2 agent3)
                  (ReplayBuffer.obs samples) (ReplayBuffer.acts samples))).
Proof.
  assert (Hs : ReplayBuffer.sample_batch (SAC.memory agent3) (np_rng world)
               = Returned (samples, 2)) by reflexivity.
  split; [exact Hs|].
  destruct (update_model_q_losses hp world agent3 samples 2 Hs)
    as (q & w' & self' & l & Hrun & Hlen & Hq & Hloss & _).
  - cbn; lia.
  - repeat constructor.
  - discriminate.
  - exists q, w', self', l. split; [exact Hrun|]. split; [|exact Hloss].
    pose proof (Hq 0 1%Z 15%Z false eq_refl eq_refl eq_refl) as H0.
    pose proof (Hq 1 2%Z 18%Z false eq_refl eq_refl eq_refl) as H1.
    destruct q as [|q0 [|q1 [|q2 q]]]; try discriminate.
    by injection H0 as ->; injection H1 as ->.
Defined.

(** C2 on the toy agent: [log_alpha] is [0] before and after the step, the
    temperature loss is the mean of [-(2^0) * (log_prob_i - 2)]. *)
Lemma update_model_alpha_witness :
  SAC.log_alpha agent3 = [0%Z]
  ∧ ∃ w' self' losses,
      SAC.update_model hp world agent3 = (w', self', Returned losses)
      ∧ SAC.alpha_loss losses = (-6)%Z
      ∧ SAC.log_alpha self' = [0%Z]
      ∧ SAC.v_loss losses = 22%Z.
Proof.
  split; [reflexivity|].
  destruct (update_model_alpha hp world agent3 samples 2 0%Z 0%Z)
    as (w' & self' & l & Hrun & Hal & _ & Hla & _ & Hv & _).
  - reflexivity.
  - cbn; lia.
  - repeat constructor.
  - discriminate.
  - reflexivity.
  - reflexivity.
  - exists w', self', l. repeat split; [exact Hrun|exact Hal|exact Hla|exact Hv].
Defined.

(** C3 on the toy agents: at step 3 (not a multiple of 2) the actor is left
    alone and the actor loss is the zero placeholder; at step 4 the actor is
    stepped and the target network softly updated. *)
Lemma update_model_policy_cadence_witness :
  (∃ w' self' losses,
     SAC.update_model hp world agent3 = (w', self', Returned losses)
     ∧ SAC.actor_loss losses = 0%Z
     ∧ SAC.actor self' = SAC.actor agent3
     ∧ SAC.actor_optimizer self' = 0
     ∧ SAC.vf_target self' = SAC.vf_target agent3)
  ∧ (∃ w' self' losses,
       SAC.update_model hp world agent4 = (w', self', Returned losses)
       ∧ SAC.actor_optimizer self' = 1
       ∧ SAC.vf_target self' = SAC.vf_target (SAC._target_soft_update hp agent4)
       ∧ calls w' =
           [SampleBatch; OptimizerStep OptAlpha; OptimizerStep OptActor; TargetSoftUpdate;
            OptimizerStep OptQf1; OptimizerStep OptQf2; OptimizerStep OptVf]).
Proof.
  split.
  - destruct (update_model_policy_cadence hp world agent3 samples 2)
      as (w' & self' & l & Hrun & _ & Hskip).
    + reflexivity.
    + cbn; lia.
    + repeat constructor.
    + discriminate.
    + destruct Hskip as (Hl & Ha & Ho & Hv & _); [discriminate|].
      exists w', self', l. repeat split; assumption.
  - destruct (update_model_policy_cadence hp world agent4 samples 2)
      as (w' & self' & l & Hrun & Hdo & _).
    + reflexivity.
    + cbn; lia.
    + repeat constructor.
    + discriminate.
    + destruct Hdo as (_ & _ & Ho & Hv & Hc); [reflexivity|].
      exists w', self', l. repeat split; assumption.
Defined.

(** C4, the claim as stated fails: for the toy agent, whose action dimension
    is 2, [step] on a state of length 3 returns the one-row list [[1; 1]],
    whose length is 1. *)
Lemma step_result_is_nested :
  length [1; 2; 3]%Z = SAC.statedim agent
  ∧ (SAC.step world agent [1; 2; 3]%Z).2 = [[1; 1]%Z]
  ∧ length (SAC.step world agent [1; 2; 3]%Z).2 ≠ SAC.actiondim agent.
Proof. repeat split. discriminate. Qed.

(** C5 on the toy agents: with three stored transitions, batch size 2 and
    three steps taken [train] runs the update; on the fresh agent it does
    nothing. *)
Lemma train_gate_witness :
  (BATCH_SIZE hp < ReplayBuffer.len (SAC.memory agent3)
   ∧ (INITIAL_RANDOM_STEPS hp < SAC.total_step agent3)%Z)
  ∧ (SAC.train hp world agent3).1 = (SAC.update_model hp world agent3).1
  ∧ (∃ rest, calls (SAC.train hp world agent3).1.1 = calls world ++ SampleBatch :: rest)
  ∧ SAC.train hp world agent = (world, agent, Returned tt).
Proof.
  assert (Hready : BATCH_SIZE hp < ReplayBuffer.len (SAC.memory agent3)
                   ∧ (INITIAL_RANDOM_STEPS hp < SAC.total_step agent3)%Z).
  { cbn. split; lia. }
  split; [exact Hready|].
  destruct (train_gate hp world agent3) as (Hrun & _ & Hcalls).
  destruct (train_gate hp world agent) as (_ & Hskip & _).
  split; [apply Hrun, Hready|].
  split; [apply Hcalls, Hready|].
  apply Hskip. cbn. lia.
Defined.

(** C7 on the toy constructor, action dimension 2. *)
Lemma init_target_entropy_witness :
  1 ≤ 2
  ∧ ∃ w' a, SAC.__init__ hp 2 3 world = (w', Returned a) ∧ SAC.target_alpha a = (-2)%Z.
Proof.
  split; [lia|].
  apply (init_target_entropy hp 2 3 world); [lia|]. intros r r'. reflexivity.
Defined.

(** C8, the claim as stated fails: outside test mode the call also assigns
    [self.transition], so the agent afterwards is not the old agent with only
    its buffer changed. *)
Lemma store_transition_sets_transition :
  SAC.is_test agent = false
  ∧ let r := SAC.store_transition world agent [1; 2; 3]%Z [2; 3; 4]%Z 1%Z [1; -1]%Z false in
    SAC.transition agent = SAC.NoTransition
    ∧ SAC.transition r.1.2 = SAC.Transition [1; 2; 3]%Z [1; -1]%Z 1%Z [2; 3; 4]%Z false
    ∧ r.1.2 ≠ SAC.set_memory
                (ReplayBuffer.store (SAC.memory agent) [1; 2; 3]%Z [1; -1]%Z 1%Z [2; 3; 4]%Z false)
                agent.
Proof.
  split; [reflexivity|]. cbn zeta. split; [reflexivity|]. split; [reflexivity|].
  intros E. apply (f_equal SAC.transition) in E. discriminate E.
Qed.

(** C8 (as amended) on the toy agent. *)
Lemma store_transition_effect_witness :
  SAC.is_test agent = false
  ∧ ReplayBuffer.wf (SAC.memory agent)
  ∧ let r := SAC.store_transition world agent [1; 2; 3]%Z [2; 3; 4]%Z 1%Z [1; -1]%Z false in
    ReplayBuffer.slot (SAC.memory r.1.2) 0
    = Some ([1; 2; 3]%Z, [1; -1]%Z, 1%Z, [2; 3; 4]%Z, false)
    ∧ ReplayBuffer.len (SAC.memory r.1.2) = 1
    ∧ r.1.1 = world.
Proof.
  assert (Hwf : ReplayBuffer.wf (SAC.memory agent)).
  { apply (wf_new (F:=Z) 3 2 4 2). lia. }
  split; [reflexivity|]. split; [exact Hwf|].
  destruct (store_transition_effect world agent [1; 2; 3]%Z [2; 3; 4]%Z 1%Z [1; -1]%Z false)
    as (Hw & _ & _ & Hrun).
  destruct (Hrun eq_refl) as (_ & _ & Hlen & Hslot).
  split; [exact (Hslot Hwf)|]. split; [exact Hlen|exact Hw].
Defined.

(** C9 on the toy agents: the parameters of [agent3] are saved and loaded
    into an agent freshly built from another generator state, whose initial
    parameters differ. *)
Lemma save_load_roundtrip_witness :
  "results" ∈ dirs world
  ∧ has_dims 3 2 agent3
  ∧ SAC.__init__ hp 2 3 (set_torch_rng 20 world) = (set_torch_rng 25 world, Returned fresh)
  ∧ SAC.actor fresh = [[20; 20]%Z]
  ∧ ∃ w' b',
      SAC.save_models world agent3 = (w', agent3, Returned tt)
      ∧ SAC.load_models w' fresh = (w', b', Returned tt)
      ∧ SAC.actor b' = [[5; 5]%Z] ∧ SAC.qf1 b' = [[8%Z]]
      ∧ SAC.qf2 b' = [[9%Z]] ∧ SAC.vf b' = [[6%Z]].
Proof.
  assert (Hdir : "results" ∈ dirs world) by (cbn; set_solver).
  assert (Hdims : has_dims 3 2 agent3) by (exists 0, 0, 0, 0; repeat split; reflexivity).
  assert (Hinit : SAC.__init__ hp 2 3 (set_torch_rng 20 world)
                  = (set_torch_rng 25 world, Returned fresh)) by reflexivity.
  split; [exact Hdir|]. split; [exact Hdims|]. split; [exact Hinit|].
  split; [reflexivity|].
  exact (save_load_roundtrip hp 2 3 (set_torch_rng 20 world) (set_torch_rng 25 world)
           world agent3 fresh toy_shapes_by_dims Hdims Hinit Hdir).
Defined.

End ToyRuns.

(** * Further properties of the methods *)

(** ** update_model *)

Section UpdateModelMore.
Context {F : Type} `{Scalar F} `{Torch F} {Rng : Type} `{Sampler Rng} `{Nets F Rng}.

Lemma update_model_untouched (hp : Hyper F) (w : World F Rng) (self : SAC.Agent F) :
  let self' := (SAC.update_model hp w self).1.2 in
  fixed_attrs self' = fixed_attrs self
  ∧ SAC.memory self' = SAC.memory self
  ∧ SAC.transition self' = SAC.transition self
  ∧ SAC.total_step self' = SAC.total_step self.
Proof.
  unfold SAC.update_model. cbn [np_rng log].
  destruct (ReplayBuffer.sample_batch _ _) as [[samples nr]|e]; [|done].
  destruct (reshape_rows _ _) as [action|e]; [|done].
  destruct (decide (POLICY_UPDATE_FREQUENCE hp = 0%Z)); [done|].
  destruct (decide _); done.
Qed.

(** X1.  Whatever [update_model] returns or raises, it leaves the replay
    buffer, the step counter, the mode flag, the dimensions, the target
    entropy and [self.transition] as they were, and it writes no file. *)
Theorem update_model_frame (hp : Hyper F) (w : World F Rng) (self : SAC.Agent F) :
  let r := SAC.update_model hp w self in
  SAC.memory r.1.2 = SAC.memory self
  ∧ SAC.total_step r.1.2 = SAC.total_step self
  ∧ SAC.is_test r.1.2 = SAC.is_test self
  ∧ SAC.statedim r.1.2 = SAC.statedim self
  ∧ SAC.actiondim r.1.2 = SAC.actiondim self
  ∧ SAC.target_alpha r.1.2 = SAC.target_alpha self
  ∧ SAC.transition r.1.2 = SAC.transition self
  ∧ files r.1.1 = files w
  ∧ dirs r.1.1 = dirs w.
Proof.
  intros r. subst r.
  destruct (update_model_untouched hp w self) as (Hfix & Hm & Ht & Hs).
  unfold fixed_attrs in Hfix. injection Hfix as Hsd Had Hta Hit.
  repeat (split; [assumption|]).
  unfold SAC.update_model. cbn [np_rng log].
  destruct (ReplayBuffer.sample_batch _ _) as [[samples nr]|e]; [|done].
  destruct (reshape_rows _ _) as [action|e]; [|done].
  destruct (decide (POLICY_UPDATE_FREQUENCE hp = 0%Z)); [done|].
  destruct (decide _); done.
Qed.

(** X2.  On every call that returns, whether or not it is a policy-update
    call, the V-critic and both Q-critics are stepped once: the V-critic on
    the mean-squared error between [V(state)] and the constant
    [v_target = q_pred - alpha * log_prob], where [alpha] comes from the
    [log_alpha] the call leaves behind, and all from the parameters the
    critics had when the call began. *)
Theorem update_model_critic_steps (hp : Hyper F) (w : World F Rng) (self : SAC.Agent F)
    (samples : ReplayBuffer.Batch F) (nr : Rng) :
  ReplayBuffer.sample_batch (SAC.memory self) (np_rng w) = Returned (samples, nr) →
  0 < SAC.actiondim self →
  Forall (λ a, length a = SAC.actiondim self) (ReplayBuffer.acts samples) →
  POLICY_UPDATE_FREQUENCE hp ≠ 0%Z →
  let state := ReplayBuffer.obs samples in
  let out := (Actor_forward (SAC.actor self) (torch_rng w) state).1 in
  let q_pred :=
    zip_with fminimum (CriticQ_forward (SAC.qf1 self) state out.1)
                      (CriticQ_forward (SAC.qf2 self) state out.1) in
  ∃ w' self' losses,
    SAC.update_model hp w self = (w', self', Returned losses)
    ∧ let v_target :=
        zip_with fsub q_pred (bcast fmul (fexp <$> SAC.log_alpha self') out.2) in
      let v_step :=
        opt_step (SAC.vf_optimizer self) (SAC.vf self)
          (backward (λ θ, mse_loss (CriticV_forward θ state) v_target) (SAC.vf self)) in
      SAC.vf self' = v_step.2
      ∧ SAC.vf_optimizer self' = v_step.1
      ∧ SAC.v_loss losses = mse_loss (CriticV_forward (SAC.vf self) state) v_target
      ∧ (∃ g, SAC.qf1_optimizer self'
              = (opt_step (SAC.qf1_optimizer self) (SAC.qf1 self) g).1)
      ∧ (∃ g, SAC.qf2_optimizer self'
              = (opt_step (SAC.qf2_optimizer self) (SAC.qf2 self) g).1)
      ∧ ∃ policy_calls,
          calls w' = calls w ++ [SampleBatch; OptimizerStep OptAlpha] ++ policy_calls
                       ++ [OptimizerStep OptQf1; OptimizerStep OptQf2; OptimizerStep OptVf].
Proof.
  intros Hs Hk Hacts Hfreq state out q_pred.
  run_update Hs Hk Hacts.
  eexists _, _, _. split; [reflexivity|].
  cbn [SAC.set_alpha SAC.total_step].
  destruct (decide _); cbn.
  - repeat split; try reflexivity; [eexists; reflexivity..|].
    exists [OptimizerStep OptActor; TargetSoftUpdate]. by rewrite <- !app_assoc.
  - repeat split; try reflexivity; [eexists; reflexivity..|].
    exists []. by rewrite <- !app_assoc.
Qed.

(** X3.  With the constants the module defines ([POLICY_UPDATE_FREQUENCE] is
    1), every call of [update_model] that gets its batch returns, and it steps
    the actor and softly updates the target network, whatever the step
    counter is: the zero placeholder for the actor loss is never used. *)
Theorem update_model_module_constants (w : World F Rng) (self : SAC.Agent F)
    (samples : ReplayBuffer.Batch F) (nr : Rng) :
  ReplayBuffer.sample_batch (SAC.memory self) (np_rng w) = Returned (samples, nr) →
  0 < SAC.actiondim self →
  Forall (λ a, length a = SAC.actiondim self) (ReplayBuffer.acts samples) →
  ∃ w' self' losses,
    SAC.update_model module_constants w self = (w', self', Returned losses)
    ∧ SAC.vf_target self' = SAC.vf_target (SAC._target_soft_update module_constants self)
    ∧ (∃ g, SAC.actor_optimizer self'
            = (opt_step (SAC.actor_optimizer self) (SAC.actor self) g).1
            ∧ SAC.actor self' = (opt_step (SAC.actor_optimizer self) (SAC.actor self) g).2)
    ∧ calls w' = calls w ++
        [SampleBatch; OptimizerStep OptAlpha; OptimizerStep OptActor; TargetSoftUpdate;
         OptimizerStep OptQf1; OptimizerStep OptQf2; OptimizerStep OptVf].
Proof.
  intros Hs Hk Hacts.
  unfold SAC.update_model. cbn [np_rng log]. rewrite Hs.
  rewrite (reshape_rows_id _ _ Hk Hacts).
  destruct (decide (POLICY_UPDATE_FREQUENCE module_constants = 0%Z)) as [Hz|_];
    [discriminate Hz|].
  cbn [SAC.set_alpha SAC.total_step].
  destruct (decide _) as [_|Hne].
  - eexists _, _, _. split; [reflexivity|]. cbn.
    split; [reflexivity|]. split; [eexists; split; reflexivity|].
    by rewrite <- !app_assoc.
  - exfalso. apply Hne. cbn. apply Z.mod_1_r.
Qed.


End UpdateModelMore.

(** ** save_models and load_models *)

Section PersistenceMore.
Context {F : Type} `{Scalar F} `{Torch F} {Rng : Type} `{Sampler Rng} `{Nets F Rng}.

(** X5.  Without the directory [results], [save_models] raises RuntimeError
    (the error of [torch.save] when the parent directory does not exist) at
    its first line and writes nothing: the world and the agent are as
    before. *)
Theorem save_models_missing_dir (w : World F Rng) (self : SAC.Agent F) :
  "results" ∉ dirs w →
  SAC.save_models w self = (w, self, Raised RuntimeError).
Proof.
  intros Hdir. destruct dirname_results as (Da & _).
  unfold SAC.save_models, torch_save. rewrite Da.
  destruct (decide _) as [Hin|_]; [done|reflexivity].
Qed.

(** X6.  Saving an agent and loading the files back into that same agent
    both return and leave the agent exactly as it was. *)
Theorem save_load_same_agent (w : World F Rng) (self : SAC.Agent F) :
  "results" ∈ dirs w →
  ∃ w', SAC.save_models w self = (w', self, Returned tt)
        ∧ SAC.load_models w' self = (w', self, Returned tt)
        ∧ dirs w' = dirs w
        ∧ calls w' = calls w.
Proof.
  intros Hdir. eexists. split; [by apply save_models_files|].
  split; [|done].
  unfold SAC.load_models, torch_load. cbn.
  rewrite !lookup_insert_ne by done. rewrite lookup_insert_eq.
  rewrite (load_state_dict_fits _ _ eq_refl). cbn.
  rewrite !lookup_insert_ne by done. rewrite lookup_insert_eq.
  rewrite (load_state_dict_fits _ _ eq_refl). cbn.
  rewrite !lookup_insert_ne by done. rewrite lookup_insert_eq.
  rewrite (load_state_dict_fits _ _ eq_refl). cbn.
  rewrite lookup_insert_eq.
  rewrite (load_state_dict_fits _ _ eq_refl). cbn.
  by destruct self.
Qed.

(** X7.  A later save overwrites an earlier one: the world after saving [a1]
    and then [a2] is the world after saving [a2] alone, and files under other
    paths are kept. *)
Theorem save_models_last_wins (w : World F Rng) (a1 a2 : SAC.Agent F) :
  "results" ∈ dirs w →
  (SAC.save_models (SAC.save_models w a1).1.1 a2).1.1 = (SAC.save_models w a2).1.1
  ∧ ∀ path,
      path ∉ ["results/actor.pt"; "results/qf1.pt"; "results/qf2.pt"; "results/vf.pt"] →
      files (SAC.save_models w a2).1.1 !! path = files w !! path.
Proof.
  intros Hdir. rewrite (save_models_files w a1 Hdir). cbn [fst].
  rewrite (save_models_files _ a2) by done.
  rewrite (save_models_files w a2 Hdir). cbn [fst set_files dirs files torch_rng np_rng calls].
  split.
  - unfold set_files. cbn. f_equal. apply map_eq. intros k.
    rewrite !lookup_insert. repeat case_decide; done.
  - intros path Hpath. rewrite !lookup_insert.
    repeat case_decide; try done; subst; exfalso; apply Hpath; set_solver.
Qed.

(** X8.  [load_models] is not atomic.  A missing actor file raises
    FileNotFoundError with the agent untouched.  A mis-shaped actor file
    raises RuntimeError, but only after every tensor of the file that fits
    its counterpart has been copied into the actor: the actor afterwards has
    the saved tensor wherever the sizes agree and its own tensor elsewhere,
    and everything else is as before.  A good actor file followed by a
    missing qf1 file raises FileNotFoundError with the actor already replaced
    and everything else as before. *)
Theorem load_models_failures (w : World F Rng) (self : SAC.Agent F) (sd : Params F) :
  (files w !! "results/actor.pt" = None →
     SAC.load_models w self = (w, self, Raised FileNotFoundError))
  ∧ (files w !! "results/actor.pt" = Some sd → shape (SAC.actor self) ≠ shape sd →
     (∃ actor',
        SAC.load_models w self
        = (w, SAC.set_actor (SAC.actor_optimizer self) actor' self, Raised RuntimeError)
        ∧ shape actor' = shape (SAC.actor self)
        ∧ ∀ i o, SAC.actor self !! i = Some o →
            actor' !! i = Some (match sd !! i with
                                | Some t => if decide (length o = length t) then t else o
                                | None => o
                                end)))
  ∧ (files w !! "results/actor.pt" = Some sd → shape (SAC.actor self) = shape sd →
     files w !! "results/qf1.pt" = None →
     SAC.load_models w self
     = (w, SAC.set_actor (SAC.actor_optimizer self) sd self, Raised FileNotFoundError)).
Proof.
  unfold SAC.load_models, torch_load.
  split; [|split].
  - intros ->. reflexivity.
  - intros -> Hne. exists (copy_fitting (SAC.actor self) sd).
    split; [|split].
    + unfold load_state_dict. cbn [fst snd]. destruct (decide _); done.
    + apply copy_fitting_shape.
    + intros i o Ho. by apply copy_fitting_lookup.
  - intros -> Heq Hq1. rewrite (load_state_dict_fits _ _ Heq). cbn. rewrite Hq1. reflexivity.
Qed.

Lemma load_models_untouched (w : World F Rng) (self : SAC.Agent F) :
  (SAC.load_models w self).1.1 = w
  ∧ fixed_attrs (SAC.load_models w self).1.2 = fixed_attrs self
  ∧ SAC.memory (SAC.load_models w self).1.2 = SAC.memory self
  ∧ SAC.total_step (SAC.load_models w self).1.2 = SAC.total_step self.
Proof.
  unfold SAC.load_models, load_state_dict. cbn [fst snd].
  repeat (destruct (torch_load _ _) as [?|?]; [|done];
          destruct (decide _) as [?|?]; [|done]).
  done.
Qed.

Lemma save_models_agent (w : World F Rng) (self : SAC.Agent F) :
  (SAC.save_models w self).1.2 = self
  ∧ calls (SAC.save_models w self).1.1 = calls w.
Proof.
  destruct dirname_results as (Da & D1 & D2 & Dv).
  unfold SAC.save_models, torch_save.
  rewrite Da. destruct (decide _); [|done].
  rewrite D1. cbn [dirs set_files]. destruct (decide _); [|done].
  rewrite D2. cbn [dirs set_files]. destruct (decide _); [|done].
  rewrite Dv. cbn [dirs set_files]. destruct (decide _); done.
Qed.

(** X9.  Whatever [load_models] returns or raises, it changes nothing but the
    parameters of the actor, the two Q-critics and the V-critic: the target
    value network, [log_alpha], all five optimisers, the buffer and the step
    counter are as before, and the world is unchanged.  So after a successful
    load the target network is still the old one, not a copy of the loaded
    V-critic. *)
Theorem load_models_frame (w : World F Rng) (self : SAC.Agent F) :
  let r := SAC.load_models w self in
  r.1.1 = w
  ∧ SAC.vf_target r.1.2 = SAC.vf_target self
  ∧ SAC.log_alpha r.1.2 = SAC.log_alpha self
  ∧ SAC.memory r.1.2 = SAC.memory self
  ∧ SAC.total_step r.1.2 = SAC.total_step self
  ∧ SAC.transition r.1.2 = SAC.transition self
  ∧ fixed_attrs r.1.2 = fixed_attrs self
  ∧ (SAC.alpha_optimizer r.1.2, SAC.actor_optimizer r.1.2, SAC.vf_optimizer r.1.2,
     SAC.qf1_optimizer r.1.2, SAC.qf2_optimizer r.1.2)
    = (SAC.alpha_optimizer self, SAC.actor_optimizer self, SAC.vf_optimizer self,
       SAC.qf1_optimizer self, SAC.qf2_optimizer self).
Proof.
  intros r. subst r. unfold SAC.load_models, load_state_dict. cbn [fst snd].
  repeat (destruct (torch_load _ _) as [?|?]; [|done];
          destruct (decide _) as [?|?]; [|done]).
  done.
Qed.

End PersistenceMore.

(** ** Sequences of calls *)

Section RunsMore.
Context {F : Type} `{Scalar F} `{Torch F} {Rng : Type} `{Sampler Rng} `{Nets F Rng}.

Lemma train_untouched (hp : Hyper F) (w : World F Rng) (self : SAC.Agent F) :
  let self' := (SAC.train hp w self).1.2 in
  fixed_attrs self' = fixed_attrs self
  ∧ SAC.memory self' = SAC.memory self
  ∧ SAC.transition self' = SAC.transition self
  ∧ SAC.total_step self' = SAC.total_step self.
Proof.
  unfold SAC.train. destruct (decide _); [|done].
  pose proof (update_model_untouched hp w self) as Hup.
  by destruct (SAC.update_model hp w self) as [[w' self'] [l|e]].
Qed.

Lemma exec_update_model (hp : Hyper F) (w : World F Rng) (self : SAC.Agent F) :
  (exec hp w self call_update_model).1 = (SAC.update_model hp w self).1.
Proof. cbn. by destruct (SAC.update_model hp w self) as [[w' self'] [l|e]]. Qed.

Lemma exec_fixed_attrs (hp : Hyper F) (w : World F Rng) (self : SAC.Agent F) (m : Method F) :
  fixed_attrs (exec hp w self m).1.2 = fixed_attrs self.
Proof.
  destruct m as [state|s s' r a d| | | |].
  - reflexivity.
  - cbn. unfold SAC.store_transition. by destruct (SAC.is_test self).
  - apply train_untouched.
  - rewrite exec_update_model. apply update_model_untouched.
  - cbn. by destruct (save_models_agent w self) as [-> _].
  - apply load_models_untouched.
Qed.

Lemma exec_total_step (hp : Hyper F) (w : World F Rng) (self : SAC.Agent F) (m : Method F) :
  SAC.total_step (exec hp w self m).1.2
  = (SAC.total_step self + (if is_step m then 1 else 0))%Z.
Proof.
  destruct m as [state|s s' r a d| | | |]; cbn [is_step]; rewrite ?Z.add_0_r.
  - reflexivity.
  - cbn. unfold SAC.store_transition. by destruct (SAC.is_test self).
  - apply train_untouched.
  - rewrite exec_update_model. apply update_model_untouched.
  - cbn. by destruct (save_models_agent w self) as [-> _].
  - apply load_models_untouched.
Qed.

Lemma count_steps_cons (m : Method F) (ms : list (Method F)) :
  count_steps (m :: ms) = (if is_step m then 1 else 0) + count_steps ms.
Proof.
  unfold count_steps. rewrite filter_cons. by destruct (is_step m); case_decide.
Qed.

(** X10.  No method assigns the mode flag, the dimensions or the target
    entropy.  So an agent that [__init__] built and that is driven through
    any sequence of method calls is never in test mode (every
    [store_transition] stores), and its target entropy stays [-action_dim]. *)
Theorem run_fixed_attributes (hp : Hyper F) (action_dim state_dim : nat)
    (w0 w1 w : World F Rng) (a : SAC.Agent F) (ms : list (Method F)) :
  SAC.__init__ hp action_dim state_dim w0 = (w1, Returned a) →
  let a' := (run hp w a ms).1.2 in
  SAC.is_test a' = false
  ∧ SAC.target_alpha a' = (- Z.of_nat action_dim)%Z
  ∧ SAC.statedim a' = state_dim
  ∧ SAC.actiondim a' = action_dim.
Proof.
  intros Hinit a'.
  assert (Hrun : fixed_attrs a' = fixed_attrs a).
  { subst a'. clear Hinit. revert w a.
    induction ms as [|m ms IH]; intros w a; [done|]. cbn [run].
    pose proof (exec_fixed_attrs hp w a m) as Hm.
    destruct (exec hp w a m) as [[w' s'] [u|e]]; cbn in Hm |- *; [|done].
    by rewrite IH. }
  unfold SAC.__init__, load_state_dict in Hinit. cbn [fst snd] in Hinit.
  destruct (decide _) as [_|]; [|done].
  injection Hinit as _ <-. unfold fixed_attrs in Hrun. cbn in Hrun.
  injection Hrun as -> -> -> ->. repeat split. lia.
Qed.

(** X11.  Only [step] moves the step counter, by one each call: along any
    sequence of calls it never decreases, and after a sequence that ran to
    its end it has grown by the number of [step] calls. *)
Theorem run_total_step (hp : Hyper F) (w : World F Rng) (self : SAC.Agent F)
    (ms : list (Method F)) :
  let r := run hp w self ms in
  (SAC.total_step self ≤ SAC.total_step r.1.2
   ≤ SAC.total_step self + Z.of_nat (count_steps ms))%Z
  ∧ (r.2 = Returned tt →
     SAC.total_step r.1.2 = (SAC.total_step self + Z.of_nat (count_steps ms))%Z).
Proof.
  revert w self. induction ms as [|m ms IH]; intros w self; cbn zeta.
  - cbn. split; [lia|]. intros _. unfold count_steps. cbn. lia.
  - cbn [run]. rewrite count_steps_cons.
    pose proof (exec_total_step hp w self m) as Hm.
    destruct (exec hp w self m) as [[w' s'] [u|e]]; cbn in Hm |- *.
    + destruct (IH w' s') as [Hle Heq]. rewrite Hm in Hle, Heq.
      split; [destruct (is_step m); lia|].
      intros Hret. rewrite (Heq Hret). destruct (is_step m); lia.
    + split; [destruct (is_step m); lia|]. intros Hret. discriminate Hret.
Qed.

Lemma exec_passive (hp : Hyper F) (w : World F Rng) (self : SAC.Agent F) (m : Method F) :
  is_passive m = true →
  (SAC.total_step self ≤ INITIAL_RANDOM_STEPS hp)%Z →
  learned (exec hp w self m).1.2 = learned self
  ∧ calls (exec hp w self m).1.1 = calls w.
Proof.
  intros Hm Hwarm. destruct m as [state|s s' r a d| | | |]; try discriminate Hm.
  - done.
  - cbn. unfold SAC.store_transition. by destruct (SAC.is_test self).
  - cbn. unfold SAC.train. destruct (decide _) as [[_ Hgt]|_]; [lia|done].
  - cbn. by destruct (save_models_agent w self) as [-> ->].
Qed.

(** X12.  Nothing is learned during warm-up.  Along a sequence of [step],
    [store_transition], [train] and [save_models] calls during which the step
    counter does not get past [INITIAL_RANDOM_STEPS], no parameter set and no
    optimiser changes and no batch is sampled, whatever the buffer holds. *)
Theorem run_warmup (hp : Hyper F) (w : World F Rng) (self : SAC.Agent F)
    (ms : list (Method F)) :
  Forall (λ m, is_passive m = true) ms →
  (SAC.total_step self + Z.of_nat (count_steps ms) ≤ INITIAL_RANDOM_STEPS hp)%Z →
  learned (run hp w self ms).1.2 = learned self
  ∧ calls (run hp w self ms).1.1 = calls w.
Proof.
  intros Hms. revert w self.
  induction Hms as [|m ms Hm _ IH]; intros w self Hwarm; [done|].
  cbn [run]. rewrite count_steps_cons in Hwarm.
  assert (Hnow : (SAC.total_step self ≤ INITIAL_RANDOM_STEPS hp)%Z) by lia.
  destruct (exec_passive hp w self m Hm Hnow) as [Hl Hc].
  pose proof (exec_total_step hp w self m) as Hts.
  destruct (exec hp w self m) as [[w' s'] [u|e]]; cbn in Hl, Hc, Hts |- *; [|done].
  destruct (IH w' s') as [Hl' Hc'].
  - rewrite Hts. destruct (is_step m); lia.
  - split; congruence.
Qed.

Lemma exec_well_shaped (hp : Hyper F) (w : World F Rng) (self : SAC.Agent F) (m : Method F) :
  opt_keeps_shape → well_shaped self → well_shaped (exec hp w self m).1.2.
Proof.
  intros Hopt Hws. destruct m as [state|s s' r a d| | | |].
  - exact Hws.
  - by apply store_transition_well_shaped.
  - by apply train_well_shaped.
  - rewrite exec_update_model. by apply update_model_well_shaped.
  - cbn. by destruct (save_models_agent w self) as [-> _].
  - by apply load_models_well_shaped.
Qed.

(** X13.  For an agent that [__init__] built, after any sequence of method
    calls [log_alpha] still has one element and the target value network
    still has the shape of the online one (optimiser steps keep sizes): the
    soft update always finds two parameter lists that match. *)
Theorem run_well_shaped (hp : Hyper F) (action_dim state_dim : nat)
    (w0 w1 w : World F Rng) (a : SAC.Agent F) (ms : list (Method F)) :
  opt_keeps_shape →
  SAC.__init__ hp action_dim state_dim w0 = (w1, Returned a) →
  well_shaped (run hp w a ms).1.2.
Proof.
  intros Hopt Hinit. apply init_well_shaped in Hinit. revert w a Hinit.
  induction ms as [|m ms IH]; intros w a Hws; [exact Hws|]. cbn [run].
  pose proof (exec_well_shaped hp w a m Hopt Hws) as Hm.
  destruct (exec hp w a m) as [[w' s'] [u|e]]; cbn in Hm |- *; [|exact Hm].
  by apply IH.
Qed.

(** X14.  The condition of [train] is stable: once it holds, it still holds
    after a call of [step], [train], [update_model], [save_models] or
    [load_models], none of which touches the buffer or lowers the step
    counter. *)
Theorem train_ready_stable (hp : Hyper F) (w : World F Rng) (self : SAC.Agent F)
    (m : Method F) :
  train_ready hp self →
  (∀ s s' r a d, m ≠ call_store_transition s s' r a d) →
  train_ready hp (exec hp w self m).1.2.
Proof.
  intros [Hlen Hstep] Hm. unfold train_ready.
  pose proof (exec_total_step hp w self m) as Hts.
  assert (Hmem : SAC.memory (exec hp w self m).1.2 = SAC.memory self).
  { destruct m as [state|s s' r a d| | | |].
    - reflexivity.
    - by destruct (Hm s s' r a d).
    - apply train_untouched.
    - rewrite exec_update_model. apply update_model_untouched.
    - cbn. by destruct (save_models_agent w self) as [-> _].
    - apply load_models_untouched. }
  rewrite Hmem, Hts. split; [exact Hlen|]. destruct (is_step m); lia.
Qed.

End RunsMore.

(** ** step, __init__ and _target_soft_update *)

Section MethodsMore.
Context {F : Type} `{Scalar F} `{Torch F} {Rng : Type} `{Sampler Rng} `{Nets F Rng}.

(** X15.  Clipping is there for the edge only: when every component of the
    actor's action already lies in [-1, 1], [step] returns that action as it
    is, in its one-row list. *)
Theorem step_in_range_unchanged `{!ClipExact F}
    (w : World F Rng) (self : SAC.Agent F) (state : list F) :
  let action := (Actor_forward1 (SAC.actor self) (torch_rng w) state).1.1 in
  Forall (λ x, fleb (of_Z (-1)) x = true ∧ fleb x (of_Z 1) = true) action →
  (SAC.step w self state).2 = [action].
Proof.
  intros action Hin. unfold SAC.step. cbn. f_equal. fold action.
  induction Hin as [|x l [Hlo Hhi] _ IH]; [done|]. cbn. f_equal; [|exact IH].
  unfold np_clip. rewrite (fmaximum_l _ _ Hlo). by apply fminimum_r.
Qed.

(** X16.  Construction can only fail with RuntimeError, when the two value
    networks it builds differ in shape.  The agent it returns has its target
    value network equal to the online one, [log_alpha] at zero, the step
    counter at zero and no transition; and as long as
    [INITIAL_RANDOM_STEPS] is not negative, [train] on that agent does
    nothing. *)
Theorem init_fresh_agent (hp : Hyper F) (action_dim state_dim : nat) (w : World F Rng) :
  match (SAC.__init__ hp action_dim state_dim w).2 with
  | Returned a =>
      SAC.vf_target a = SAC.vf a
      ∧ SAC.log_alpha a = [of_Z 0]
      ∧ SAC.total_step a = 0%Z
      ∧ SAC.transition a = SAC.NoTransition
      ∧ ((0 ≤ INITIAL_RANDOM_STEPS hp)%Z →
         ∀ w2, SAC.train hp w2 a = (w2, a, Returned tt))
  | Raised e =>
      e = RuntimeError
      ∧ ∃ r r', shape (CriticV state_dim r).1 ≠ shape (CriticV state_dim r').1
  end.
Proof.
  unfold SAC.__init__, load_state_dict.
  destruct (decide _) as [Heq|Hne]; cbn.
  - split; [by apply copy_fitting_same_shape|].
    do 3 (split; [reflexivity|]). intros Hwarm w2. unfold SAC.train.
    destruct (decide _) as [[_ Hgt]|_]; [|reflexivity]. cbn in Hgt. lia.
  - split; [reflexivity|]. eexists _, _. intros Heq. apply Hne. symmetry. exact Heq.
Qed.

(** X17.  [_target_soft_update] assigns the target value network and nothing
    else.  When every target tensor has the size of the online tensor that
    [zip] pairs it with, the target keeps its number of tensors, also when
    the two lists differ in length: a tensor with an online partner keeps its
    size and becomes, element by element, the blend
    [TAU * online + (1 - TAU) * target]; a tensor beyond the online list
    stays as it is. *)
Theorem target_soft_update_frame (hp : Hyper F) (self : SAC.Agent F) :
  (∀ i tp lp, SAC.vf_target self !! i = Some tp → SAC.vf self !! i = Some lp →
     length tp = length lp) →
  let self' := SAC._target_soft_update hp self in
  self' = SAC.set_vf_target (SAC.vf_target self') self
  ∧ length (SAC.vf_target self') = length (SAC.vf_target self)
  ∧ (∀ i tp lp, SAC.vf_target self !! i = Some tp → SAC.vf self !! i = Some lp →
       ∃ tp', SAC.vf_target self' !! i = Some tp'
              ∧ length tp' = length tp
              ∧ ∀ j t l, tp !! j = Some t → lp !! j = Some l →
                  tp' !! j = Some (fadd (fmul (TAU hp) l) (fmul (fsub (of_Z 1) (TAU hp)) t)))
  ∧ (∀ i, length (SAC.vf self) ≤ i →
       SAC.vf_target self' !! i = SAC.vf_target self !! i).
Proof.
  intros Hsizes self'. subst self'. unfold SAC._target_soft_update.
  cbn [SAC.vf_target SAC.set_vf_target].
  split; [reflexivity|]. split; [|split].
  - rewrite length_app, length_zip_with, length_drop. lia.
  - intros i tp lp Ht Hl. exists (SAC.soft_update_tensor hp tp lp).
    split; [|split].
    + rewrite lookup_app_l.
      * by rewrite lookup_zip_with, Ht, Hl.
      * rewrite length_zip_with. apply lookup_lt_Some in Ht, Hl. lia.
    + apply soft_update_tensor_length. by apply (Hsizes i).
    + intros j t l Htj Hlj. by apply soft_update_tensor_lookup.
  - intros i Hi.
    destruct (decide (length (SAC.vf_target self) ≤ i)) as [Hout|Hin].
    + rewrite !lookup_ge_None_2; [done|lia|].
      rewrite length_app, length_zip_with, length_drop. lia.
    + rewrite lookup_app_r by (rewrite length_zip_with; lia).
      rewrite length_zip_with, lookup_drop. f_equal. lia.
Qed.

End MethodsMore.

(** ** The further properties on the executable instance *)

Section ToyRunsMore.
Import Toy ToyRun.

Lemma toy_clip_exact : ClipExact Z.
Proof.
  split; cbn.
  - intros x y Hle. apply Z.leb_le in Hle. lia.
  - intros x y Hle. apply Z.leb_le in Hle. lia.
Qed.

Lemma toy_still_keeps_shape : opt_keeps_shape (F:=Z) (H0:=torch_still).
Proof. split; intros; reflexivity. Qed.

(** X2 on the toy agent at step 3, not a policy-update call: the three critic
    optimisers have taken their first step. *)
Lemma update_model_critic_steps_witness :
  ReplayBuffer.sample_batch (SAC.memory agent3) (np_rng world) = Returned (samples, 2)
  ∧ ∃ w' self' losses,
      SAC.update_model hp world agent3 = (w', self', Returned losses)
      ∧ SAC.vf_optimizer self' = 1
      ∧ SAC.v_loss losses = 22%Z
      ∧ SAC.qf1_optimizer self' = 1
      ∧ SAC.qf2_optimizer self' = 1.
Proof.
  split; [reflexivity|].
  destruct (update_model_critic_steps hp world agent3 samples 2)
    as (w' & self' & l & Hrun & Hvf & Hvo & Hvl & [g1 Hq1] & [g2 Hq2] & _).
  - reflexivity.
  - cbn; lia.
  - repeat constructor.
  - discriminate.
  - exists w', self', l.
    split; [exact Hrun|]. split; [exact Hvo|]. split; [|split; [exact Hq1|exact Hq2]].
    rewrite Hvl. injection Hrun as _ <- _. reflexivity.
Defined.

(** X3 on the toy agent at step 3, with the module's constants. *)
Lemma update_model_module_constants_witness :
  ReplayBuffer.sample_batch (SAC.memory agent3) (np_rng world) = Returned (samples, 2)
  ∧ ∃ w' self' losses,
      SAC.update_model module_constants world agent3 = (w', self', Returned losses)
      ∧ SAC.actor_optimizer self' = 1
      ∧ calls w' =
          [SampleBatch; OptimizerStep OptAlpha; OptimizerStep OptActor; TargetSoftUpdate;
           OptimizerStep OptQf1; OptimizerStep OptQf2; OptimizerStep OptVf].
Proof.
  split; [reflexivity|].
  destruct (update_model_module_constants world agent3 samples 2)
    as (w' & self' & l & Hrun & _ & (g & Ho & _) & Hcalls).
  - reflexivity.
  - cbn; lia.
  - repeat constructor.
  - exists w', self', l. repeat split; assumption.
Defined.


(** X5 on a world without the directory. *)
Lemma save_models_missing_dir_witness :
  ("results" ∉ dirs world_nodir)
  ∧ SAC.save_models world_nodir agent3 = (world_nodir, agent3, Raised RuntimeError).
Proof.
  assert (Hdir : "results" ∉ dirs world_nodir) by (cbn; set_solver).
  split; [exact Hdir|]. exact (save_models_missing_dir world_nodir agent3 Hdir).
Defined.

(** X6 on the toy agent. *)
Lemma save_load_same_agent_witness :
  "results" ∈ dirs world
  ∧ ∃ w', SAC.save_models world agent3 = (w', agent3, Returned tt)
          ∧ SAC.load_models w' agent3 = (w', agent3, Returned tt).
Proof.
  assert (Hdir : "results" ∈ dirs world) by (cbn; set_solver).
  split; [exact Hdir|].
  destruct (save_load_same_agent world agent3 Hdir) as (w' & Hsave & Hload & _).
  exists w'. split; assumption.
Defined.

(** X7 on the toy agents: saving [agent3], then [fresh]. *)
Lemma save_models_last_wins_witness :
  "results" ∈ dirs world
  ∧ (SAC.save_models (SAC.save_models world agent3).1.1 fresh).1.1
    = (SAC.save_models world fresh).1.1
  ∧ files (SAC.save_models world fresh).1.1 !! "results/notes.txt" = None.
Proof.
  assert (Hdir : "results" ∈ dirs world) by (cbn; set_solver).
  split; [exact Hdir|].
  destruct (save_models_last_wins world agent3 fresh Hdir) as [Hlast Hother].
  split; [exact Hlast|].
  rewrite (Hother "results/notes.txt"); [reflexivity|].
  intros Hin. apply list_elem_of_In in Hin. cbn in Hin.
  destruct Hin as [Hin|[Hin|[Hin|[Hin|[]]]]]; discriminate Hin.
Defined.

(** X8 on the toy agents: no file at all; an actor file whose first tensor
    fits the two-tensor actor and whose second does not, so that the first
    tensor is overwritten before the error; and an actor file alone. *)
Lemma load_models_failures_witness :
  SAC.load_models world agent = (world, agent, Raised FileNotFoundError)
  ∧ (shape (SAC.actor agent_two) ≠ shape [[7; 7]; [8; 8; 8]]%Z
     ∧ SAC.actor agent_two = [[1; 0]; [2]]%Z
     ∧ SAC.load_models world_half_actor agent_two
       = (world_half_actor, SAC.set_actor 0 [[7; 7]; [2]]%Z agent_two, Raised RuntimeError))
  ∧ SAC.load_models world_actor_only agent
    = (world_actor_only, SAC.set_actor 0 [[7; 7]%Z] agent, Raised FileNotFoundError).
Proof.
  assert (Hne : shape (SAC.actor agent_two) ≠ shape [[7; 7]; [8; 8; 8]]%Z) by discriminate.
  split; [|split].
  - destruct (load_models_failures world agent []) as (Hmiss & _). apply Hmiss. reflexivity.
  - destruct (load_models_failures world_half_actor agent_two [[7; 7]; [8; 8; 8]]%Z)
      as (_ & Hbad & _).
    destruct (Hbad eq_refl Hne) as (actor' & Hrun & Hshape & Hlookup).
    split; [exact Hne|]. split; [reflexivity|].
    pose proof (Hlookup 0 [1; 0]%Z eq_refl) as Hfirst.
    pose proof (Hlookup 1 [2%Z] eq_refl) as Hsecond.
    destruct actor' as [|a0 [|a1 [|a2 rest]]]; try discriminate Hshape.
    vm_compute in Hfirst, Hsecond.
    injection Hfirst as ->. injection Hsecond as ->. exact Hrun.
  - destruct (load_models_failures world_actor_only agent [[7; 7]%Z]) as (_ & _ & Hpart).
    apply Hpart; reflexivity.
Defined.

(** X10 on the toy session. *)
Lemma run_fixed_attributes_witness :
  SAC.__init__ hp 2 3 world = (set_torch_rng 10 world, Returned agent)
  ∧ SAC.is_test (run hp world agent session).1.2 = false
  ∧ SAC.target_alpha (run hp world agent session).1.2 = (-2)%Z.
Proof.
  assert (Hinit : SAC.__init__ hp 2 3 world = (set_torch_rng 10 world, Returned agent))
    by reflexivity.
  split; [exact Hinit|].
  destruct (run_fixed_attributes hp 2 3 world (set_torch_rng 10 world) world agent session
              Hinit) as (Htest & Hta & _).
  split; assumption.
Defined.

(** X11 on the toy session: three [step] calls among ten calls. *)
Lemma run_total_step_witness :
  (run hp world agent session).2 = Returned tt
  ∧ SAC.total_step (run hp world agent session).1.2 = 3%Z.
Proof.
  assert (Hret : (run hp world agent session).2 = Returned tt) by (vm_compute; reflexivity).
  split; [exact Hret|].
  destruct (run_total_step hp world agent session) as [_ Heq]. exact (Heq Hret).
Defined.

(** X12 on the toy session with a warm-up of five steps: the ten calls leave
    all parameters and optimisers of the agent as constructed. *)
Lemma run_warmup_witness :
  Forall (λ m, is_passive m = true) session
  ∧ (SAC.total_step agent + Z.of_nat (count_steps session) ≤ INITIAL_RANDOM_STEPS hp_warm)%Z
  ∧ learned (run hp_warm world agent session).1.2 = learned agent
  ∧ calls (run hp_warm world agent session).1.1 = [].
Proof.
  assert (Hpass : Forall (λ m, is_passive m = true) session) by (repeat constructor).
  assert (Hwarm : (SAC.total_step agent + Z.of_nat (count_steps session)
                   ≤ INITIAL_RANDOM_STEPS hp_warm)%Z) by (vm_compute; discriminate).
  split; [exact Hpass|]. split; [exact Hwarm|].
  exact (run_warmup hp_warm world agent session Hpass Hwarm).
Defined.

(** X13 on the toy session, with the optimiser that keeps its parameters. *)
Lemma run_well_shaped_witness :
  ∃ a, SAC.__init__ (H0:=torch_still) hp 2 3 world = (set_torch_rng 10 world, Returned a)
       ∧ well_shaped (run (H0:=torch_still) hp world a session).1.2.
Proof.
  eexists. split; [reflexivity|].
  exact (run_well_shaped (H0:=torch_still) hp 2 3 world (set_torch_rng 10 world) world _
           session toy_still_keeps_shape eq_refl).
Defined.

(** X14 on the toy agent, ready with three transitions and three steps. *)
Lemma train_ready_stable_witness :
  train_ready hp agent3
  ∧ train_ready hp (exec hp world agent3 call_train).1.2
  ∧ train_ready hp (exec hp world agent3 call_load_models).1.2.
Proof.
  assert (Hready : train_ready hp agent3) by (split; cbn; lia).
  split; [exact Hready|]. split.
  - apply (train_ready_stable hp world agent3 call_train Hready). discriminate.
  - apply (train_ready_stable hp world agent3 call_load_models Hready). discriminate.
Defined.

(** X15 on a toy agent whose actor returns [1; 0]. *)
Lemma step_in_range_unchanged_witness :
  Forall (λ x, (-1 <=? x)%Z = true ∧ (x <=? 1)%Z = true) [1; 0]%Z
  ∧ (SAC.step world agent_small [1; 2; 3]%Z).2 = [[1; 0]%Z].
Proof.
  assert (Hin : Forall (λ x, (-1 <=? x)%Z = true ∧ (x <=? 1)%Z = true) [1; 0]%Z)
    by (repeat constructor).
  split; [exact Hin|].
  exact (step_in_range_unchanged (ClipExact0:=toy_clip_exact) world agent_small [1; 2; 3]%Z Hin).
Defined.

(** X16 on the toy constructor. *)
Lemma init_fresh_agent_witness :
  (0 ≤ INITIAL_RANDOM_STEPS hp)%Z
  ∧ SAC.vf_target agent = SAC.vf agent
  ∧ SAC.train hp world agent = (world, agent, Returned tt).
Proof.
  assert (Hwarm : (0 ≤ INITIAL_RANDOM_STEPS hp)%Z) by (cbn; lia).
  split; [exact Hwarm|].
  pose proof (init_fresh_agent hp 2 3 world) as Hinit. cbn in Hinit.
  destruct Hinit as (Hvt & _ & _ & _ & Htrain).
  split; [exact Hvt|]. exact (Htrain Hwarm world).
Defined.

(** X17 on a toy agent whose target has three tensors and whose online
    network has two: the third target tensor is kept. *)
Lemma target_soft_update_frame_witness :
  (∀ i tp lp, SAC.vf_target agent_surplus !! i = Some tp →
              SAC.vf agent_surplus !! i = Some lp → length tp = length lp)
  ∧ SAC.vf_target (SAC._target_soft_update (hp_tau 3) agent_surplus) !! 2 = Some [4; 5]%Z
  ∧ ∃ tp', SAC.vf_target (SAC._target_soft_update (hp_tau 3) agent_surplus) !! 1 = Some tp'
           ∧ length tp' = 1
           ∧ tp' !! 0 = Some (3 * 8 + (1 - 3) * 3)%Z.
Proof.
  assert (Hsizes : ∀ i tp lp, SAC.vf_target agent_surplus !! i = Some tp →
                     SAC.vf agent_surplus !! i = Some lp → length tp = length lp).
  { intros [|[|[|i]]] tp lp Ht Hl; cbn in Ht, Hl; try discriminate Hl.
    - by injection Ht as <-; injection Hl as <-.
    - by injection Ht as <-; injection Hl as <-. }
  split; [exact Hsizes|].
  destruct (target_soft_update_frame (hp_tau 3) agent_surplus Hsizes)
    as (_ & _ & Hblend & Hkeep).
  split.
  - rewrite (Hkeep 2); [reflexivity|]. cbn. lia.
  - destruct (Hblend 1 [3%Z] [8%Z] eq_refl eq_refl) as (tp' & Htp' & Hlen & Helem).
    exists tp'. split; [exact Htp'|]. split; [exact Hlen|].
    exact (Helem 0 3%Z 8%Z eq_refl eq_refl).
Defined.

End ToyRunsMore.
